(** * ChatGateway (src/src/gateways/chat.gateway.ts): a shallow embedding

    The gateway keeps three JS maps:
    - [userSessions : Map<string, Set<string>>] (userId -> socket ids),
    - [socketToUser : Map<string, string>] (socket id -> userId),
    - [typingUsers : Map<string, Set<string>>] (roomId -> typing userIds).
    The first two are modelled as stdpp [gmap]s. [typingUsers] is walked
    with [forEach] in [handleDisconnect], whose order fixes the order of the
    emitted [userStoppedTyping] events, so it is modelled as an association
    list in JS insertion order. A JS [Set] is a [gset].

    The socket.io side (socket v4 semantics): every socket has an id and a
    set of rooms; on connect it is in the room named by its own id.
    [server.emit] reaches every connected socket, [server.to(r).emit] every
    socket in room [r], [client.to(r).emit] every socket in room [r] that is
    not in the room named by the sender's id, [client.emit] the sender. *)

From stdpp Require Import base gmap strings list.

(** ** Payloads and events *)

Record Message := mkMessage {
  msg_id : string;
  msg_content : string;
  msg_authorId : string;
  msg_parentMessageId : option string
}.

(** [CreateMessageDto] (src/src/dto/create-message.dto.ts). *)
Record CreateMessageDto := mkCreateMessageDto {
  dto_content : string;
  dto_authorId : option string;
  dto_parentMessageId : option string;
  dto_attachmentUrl : option string;
  dto_attachmentName : option string;
  dto_attachmentType : option string;
  dto_attachmentSize : option Z
}.

(** The events emitted by the gateway, with their payload fields
    (timestamps, [createdAt] and the [author] relation are not modelled). *)
Inductive Event :=
| UserOnline (userId : string)
| UserOffline (userId : string)
| UserJoinedRoom (userId roomId : string)
| UserLeftRoom (userId roomId : string)
| NewMessage (id content authorId : string) (parentMessageId : option string)
| MessageReply (messageId content authorId : string) (parentMessageId : option string)
| UserTyping (userId : string)
| UserStoppedTyping (userId : string)
| OnlineUsers (users : list string)
| ErrorEvent (message : string).

(** Who an emit call addresses. *)
Inductive Target :=
| ServerAll                          (* this.server.emit *)
| ServerTo (room : string)           (* this.server.to(room).emit *)
| ClientTo (sender room : string)    (* client.to(room).emit *)
| ClientSelf (sender : string).      (* client.emit *)

Record Emission := emit { target : Target; event : Event }.

(** ** JS helpers *)

(** Truthiness of an optional string: [undefined] and [""] are falsy. *)
Definition if_truthy (o : option string) : option string :=
  match o with
  | Some EmptyString => None
  | _ => o
  end.

Definition truthy (o : option string) : bool :=
  match if_truthy o with Some _ => true | None => false end.

(** [a || b] on optional strings. *)
Definition js_or (a b : option string) : option string :=
  if truthy a then a else b.

(** A JS [Map] kept in insertion order: [get], [has] and [set]
    ([set] of a present key replaces its value in place, of a new key
    appends it at the end). *)
Fixpoint map_get {V} (k : string) (l : list (string * V)) : option V :=
  match l with
  | [] => None
  | (k', v) :: rest => if String.eqb k k' then Some v else map_get k rest
  end.

Definition map_has {V} (k : string) (l : list (string * V)) : bool :=
  match map_get k l with Some _ => true | None => false end.

Fixpoint map_set {V} (k : string) (v : V) (l : list (string * V)) : list (string * V) :=
  match l with
  | [] => [(k, v)]
  | (k', v') :: rest =>
      if String.eqb k k' then (k', v) :: rest else (k', v') :: map_set k v rest
  end.

(** ** Gateway state and sockets *)

Record Gateway := mkGateway {
  userSessions : gmap string (gset string);
  socketToUser : gmap string string;
  typingUsers : list (string * gset string)
}.

(** An [AuthenticatedSocket]: its id, the [userId] the gateway stored on
    it, and its socket.io rooms. *)
Record Socket := mkSocket {
  sock_id : string;
  sock_userId : option string;
  sock_rooms : gset string
}.

(** [client.handshake]: [auth.token], [auth.userId], [headers.authorization]. *)
Record Handshake := mkHandshake {
  auth_token : option string;
  auth_userId : option string;
  headers_authorization : option string
}.

Definition set_userId (u : option string) (s : Socket) : Socket :=
  mkSocket (sock_id s) u (sock_rooms s).

(** [client.join(room)] and [client.leave(room)]. *)
Definition join (room : string) (s : Socket) : Socket :=
  mkSocket (sock_id s) (sock_userId s) ({[room]} ∪ sock_rooms s).

Definition leave (room : string) (s : Socket) : Socket :=
  mkSocket (sock_id s) (sock_userId s) (sock_rooms s ∖ {[room]}).

(** ** Helper methods *)

(** [associateUserWithSocket(userId, socketId)] *)
Definition associateUserWithSocket (userId socketId : string) (g : Gateway) : Gateway :=
  let us := match userSessions g !! userId with
            | None => <[userId := ∅]> (userSessions g)
            | Some _ => userSessions g
            end in
  let sockets := default ∅ (us !! userId) in
  mkGateway (<[userId := {[socketId]} ∪ sockets]> us)
            (<[socketId := userId]> (socketToUser g))
            (typingUsers g).

(** [removeUserSocket(userId, socketId)] *)
Definition removeUserSocket (userId socketId : string) (g : Gateway) : Gateway :=
  match userSessions g !! userId with
  | Some userSockets =>
      let userSockets' := userSockets ∖ {[socketId]} in
      if Nat.eqb (size userSockets') 0
      then mkGateway (delete userId (userSessions g)) (socketToUser g) (typingUsers g)
      else mkGateway (<[userId := userSockets']> (userSessions g)) (socketToUser g) (typingUsers g)
  | None => g
  end.

(** [notifyUser(userId, event, data)]: one [server.to(socketId).emit] per
    socket id of the user. *)
Definition notifyUser (userId : string) (ev : Event) (g : Gateway) : list Emission :=
  match userSessions g !! userId with
  | Some userSockets => map (fun socketId => emit (ServerTo socketId) ev) (elements userSockets)
  | None => []
  end.

(** ** Handlers

    Each handler takes the gateway state and the client socket and returns
    the new gateway state, the (possibly updated) client socket and the
    emit calls it performed, in order. *)

Definition Out := (Gateway * Socket * list Emission)%type.

(** [handleConnection(client)] *)
Definition handleConnection (hs : Handshake) (client : Socket) (g : Gateway) : Out :=
  let token := js_or (auth_token hs) (headers_authorization hs) in
  if truthy token then
    match if_truthy (auth_userId hs) with
    | Some userId =>
        let g' := associateUserWithSocket userId (sock_id client) g in
        let client' := join ("user:" ++ userId) (set_userId (Some userId) client) in
        (g', client', [emit ServerAll (UserOnline userId)])
    | None => (g, client, [])
    end
  else (g, client, []).

(** The [typingUsers.forEach] of [handleDisconnect]: every room whose set
    has the user loses it and gets a [userStoppedTyping]. *)
Fixpoint clearTyping (userId : string) (l : list (string * gset string))
  : list (string * gset string) * list Emission :=
  match l with
  | [] => ([], [])
  | (roomId, users) :: rest =>
      let '(rest', evs) := clearTyping userId rest in
      if decide (userId ∈ users)
      then ((roomId, users ∖ {[userId]}) :: rest',
            emit (ServerTo roomId) (UserStoppedTyping userId) :: evs)
      else ((roomId, users) :: rest', evs)
  end.

(** [handleDisconnect(client)]; the client socket is gone afterwards. *)
Definition handleDisconnect (client : Socket) (g : Gateway) : Gateway * list Emission :=
  match if_truthy (sock_userId client) with
  | Some userId =>
      let g1 := removeUserSocket userId (sock_id client) g in
      let evOffline :=
        match userSessions g1 !! userId with
        | None => [emit ServerAll (UserOffline userId)]
        | Some userSockets =>
            if Nat.eqb (size userSockets) 0 then [emit ServerAll (UserOffline userId)] else []
        end in
      let '(typing', evTyping) := clearTyping userId (typingUsers g1) in
      (mkGateway (userSessions g1) (delete (sock_id client) (socketToUser g1)) typing',
       evOffline ++ evTyping)
  | None =>
      (mkGateway (userSessions g) (delete (sock_id client) (socketToUser g)) (typingUsers g), [])
  end.

(** [handleJoinRoom({roomId}, client)] *)
Definition handleJoinRoom (roomId : string) (client : Socket) (g : Gateway) : Out :=
  match if_truthy (sock_userId client) with
  | None => (g, client, [])
  | Some userId =>
      (g, join roomId client,
       [emit (ClientTo (sock_id client) roomId) (UserJoinedRoom userId roomId)])
  end.

(** [handleLeaveRoom({roomId}, client)] *)
Definition handleLeaveRoom (roomId : string) (client : Socket) (g : Gateway) : Out :=
  match if_truthy (sock_userId client) with
  | None => (g, client, [])
  | Some userId =>
      let client' := leave roomId client in
      let '(typing', evTyping) :=
        match map_get roomId (typingUsers g) with
        | Some typingInRoom =>
            if decide (userId ∈ typingInRoom)
            then (map_set roomId (typingInRoom ∖ {[userId]}) (typingUsers g),
                  [emit (ClientTo (sock_id client) roomId) (UserStoppedTyping userId)])
            else (typingUsers g, [])
        | None => (typingUsers g, [])
        end in
      (mkGateway (userSessions g) (socketToUser g) typing', client',
       evTyping ++ [emit (ClientTo (sock_id client) roomId) (UserLeftRoom userId roomId)])
  end.

(** The payload of [typing]: [{roomId?, isTyping}]. *)
Record TypingData := mkTypingData { td_roomId : option string; td_isTyping : bool }.

(** [handleTyping(data, client)] *)
Definition handleTyping (data : TypingData) (client : Socket) (g : Gateway) : Out :=
  match if_truthy (sock_userId client) with
  | None => (g, client, [])
  | Some userId =>
      let roomId := default "general" (if_truthy (td_roomId data)) in
      let typing0 := if map_has roomId (typingUsers g) then typingUsers g
                     else map_set roomId ∅ (typingUsers g) in
      let typingInRoom := default ∅ (map_get roomId typing0) in
      if td_isTyping data
      then (mkGateway (userSessions g) (socketToUser g)
              (map_set roomId ({[userId]} ∪ typingInRoom) typing0),
            client, [emit (ClientTo (sock_id client) roomId) (UserTyping userId)])
      else (mkGateway (userSessions g) (socketToUser g)
              (map_set roomId (typingInRoom ∖ {[userId]}) typing0),
            client, [emit (ClientTo (sock_id client) roomId) (UserStoppedTyping userId)])
  end.

(** [handleGetOnlineUsers(client)]: the keys of [userSessions] (the order of
    the list is JS insertion order in the source; it is not modelled). *)
Definition handleGetOnlineUsers (client : Socket) (g : Gateway) : Out :=
  (g, client, [emit (ClientSelf (sock_id client)) (OnlineUsers (elements (dom (userSessions g))))]).

(** The [MessageService] collaborator: a settled promise either resolves
    to a message or rejects. *)
Inductive Outcome := Resolved (m : Message) | Rejected (error : string).

Record MessageService := mkMessageService {
  createMessage : CreateMessageDto -> Outcome;
  getMessageById : string -> Outcome
}.

(** [{...createMessageDto, authorId: client.userId}] *)
Definition withAuthor (a : option string) (d : CreateMessageDto) : CreateMessageDto :=
  mkCreateMessageDto (dto_content d) a (dto_parentMessageId d) (dto_attachmentUrl d)
    (dto_attachmentName d) (dto_attachmentType d) (dto_attachmentSize d).

Definition createMessageArg (userId : string) (d : CreateMessageDto) : CreateMessageDto :=
  withAuthor (Some userId) d.

(** [handleMessage(createMessageDto, client)]. The two awaits are taken as
    settled outcomes; a rejection anywhere in the [try] lands in the
    [catch]. The handler changes neither the gateway state nor the socket. *)
Definition handleMessage (svc : MessageService) (d : CreateMessageDto)
    (client : Socket) (g : Gateway) : Out :=
  match if_truthy (sock_userId client) with
  | None => (g, client, [emit (ClientSelf (sock_id client)) (ErrorEvent "User not authenticated")])
  | Some userId =>
      let failed := emit (ClientSelf (sock_id client)) (ErrorEvent "Failed to send message") in
      match createMessage svc (createMessageArg userId d) with
      | Rejected _ => (g, client, [failed])
      | Resolved message =>
          let evNew := emit ServerAll (NewMessage (msg_id message) (msg_content message)
                          (msg_authorId message) (msg_parentMessageId message)) in
          match if_truthy (msg_parentMessageId message) with
          | None => (g, client, [evNew])
          | Some parentId =>
              match getMessageById svc parentId with
              | Rejected _ => (g, client, [evNew; failed])
              | Resolved parentMessage =>
                  if negb (String.eqb (msg_authorId parentMessage) userId)
                  then (g, client,
                        evNew :: notifyUser (msg_authorId parentMessage)
                                   (MessageReply (msg_id message) (msg_content message)
                                      userId (msg_parentMessageId message)) g)
                  else (g, client, [evNew])
              end
          end
      end
  end.

(** ** The server: gateway state plus the connected sockets *)

Record World := mkWorld {
  gw : Gateway;
  sockets : gmap string Socket
}.

Definition emptyGateway : Gateway := mkGateway ∅ ∅ [].
Definition initWorld : World := mkWorld emptyGateway ∅.

(** The socket ids an emit call reaches in the namespace (socket.io v4:
    [client.to(r)] excludes every socket in the room named by the sender's
    id). *)
Definition recipients (socks : gmap string Socket) (t : Target) : gset string :=
  match t with
  | ServerAll => dom socks
  | ServerTo room => dom (filter (fun kv => room ∈ sock_rooms kv.2) socks)
  | ClientTo sender room =>
      dom (filter (fun kv => room ∈ sock_rooms kv.2 /\ sender ∉ sock_rooms kv.2) socks)
  | ClientSelf sender => dom (filter (fun kv => kv.1 = sender) socks)
  end.

(** Inbound traffic on the [/chat] namespace. *)
Inductive Input :=
| Connect (socketId : string) (hs : Handshake)
| Disconnect (socketId : string)
| JoinRoom (socketId roomId : string)
| LeaveRoom (socketId roomId : string)
| SendMessage (socketId : string) (svc : MessageService) (d : CreateMessageDto)
| Typing (socketId : string) (data : TypingData)
| GetOnlineUsers (socketId : string).

Definition runHandler (w : World) (socketId : string)
    (h : Socket -> Gateway -> Out) : option (World * list Emission) :=
  match sockets w !! socketId with
  | None => None
  | Some client =>
      let '(g', client', evs) := h client (gw w) in
      Some (mkWorld g' (<[socketId := client']> (sockets w)), evs)
  end.

(** One step. A new socket gets a fresh id and starts in the room of its
    own id; on disconnect socket.io drops the socket before calling
    [handleDisconnect]. [None]: the input cannot happen in this world. *)
Definition step (w : World) (i : Input) : option (World * list Emission) :=
  match i with
  | Connect socketId hs =>
      match sockets w !! socketId with
      | Some _ => None
      | None =>
          let '(g', client', evs) :=
            handleConnection hs (mkSocket socketId None {[socketId]}) (gw w) in
          Some (mkWorld g' (<[socketId := client']> (sockets w)), evs)
      end
  | Disconnect socketId =>
      match sockets w !! socketId with
      | None => None
      | Some client =>
          let '(g', evs) := handleDisconnect client (gw w) in
          Some (mkWorld g' (delete socketId (sockets w)), evs)
      end
  | JoinRoom socketId roomId => runHandler w socketId (handleJoinRoom roomId)
  | LeaveRoom socketId roomId => runHandler w socketId (handleLeaveRoom roomId)
  | SendMessage socketId svc d => runHandler w socketId (handleMessage svc d)
  | Typing socketId data => runHandler w socketId (handleTyping data)
  | GetOnlineUsers socketId => runHandler w socketId handleGetOnlineUsers
  end.

Inductive reachable : World -> Prop :=
| reachable_init : reachable initWorld
| reachable_step w i w' evs :
    reachable w -> step w i = Some (w', evs) -> reachable w'.

(** Runs inputs in order, collecting the emissions of each step. *)
Fixpoint run (w : World) (is : list Input) : option (World * list (list Emission)) :=
  match is with
  | [] => Some (w, [])
  | i :: rest =>
      match step w i with
      | None => None
      | Some (w', evs) =>
          match run w' rest with
          | None => None
          | Some (w'', evss) => Some (w'', evs :: evss)
          end
      end
  end.

(** Handshake of a client that sends a token and a userId. *)
Definition authHs (u : string) : Handshake := mkHandshake (Some "token") (Some u) None.

(** ** Scenario inputs *)

Definition noAuthSocket (socketId : string) : Socket := mkSocket socketId None {[socketId]}.

(** A message service whose [createMessage] stores the message as given,
    and whose messages other than the new one were written by ["B"]. *)
Definition storeOfB : MessageService :=
  mkMessageService
    (fun d => Resolved (mkMessage "m2" (dto_content d) (default "" (dto_authorId d))
                          (dto_parentMessageId d)))
    (fun pid => Resolved (mkMessage pid "hello" "B" None)).

Definition failingStore : MessageService :=
  mkMessageService (fun _ => Rejected "Parent message not found or has been deleted")
                   (fun _ => Rejected "Message not found").

Definition replyDto (parentId : string) : CreateMessageDto :=
  mkCreateMessageDto "reply" None (Some parentId) None None None None.

Definition isUserOffline (e : Emission) : bool :=
  match event e with UserOffline _ => true | _ => false end.

(** The global [userOffline] decision of [handleDisconnect]. *)
Definition offlineAfter (u : string) (g1 : Gateway) : list Emission :=
  match userSessions g1 !! u with
  | None => [emit ServerAll (UserOffline u)]
  | Some userSockets =>
      if Nat.eqb (size userSockets) 0 then [emit ServerAll (UserOffline u)] else []
  end.

(** ** Properties of worlds and handlers *)

(** Every user in a typing set has a connected socket authenticated as
    that user. *)
Definition typingBacked (w : World) : Prop :=
  forall r users u, map_get r (typingUsers (gw w)) = Some users -> u ∈ users ->
  exists c s, sockets w !! c = Some s /\ if_truthy (sock_userId s) = Some u.

(** Some socket authenticated as [u] is in room [r]. *)
Definition joinedTo (w : World) (u r : string) : Prop :=
  exists c s, sockets w !! c = Some s /\ if_truthy (sock_userId s) = Some u /\ (r ∈ sock_rooms s).

Definition keepsUserId (h : Socket -> Gateway -> Out) : Prop :=
  forall client g, sock_userId (h client g).1.2 = sock_userId client.

(** A handler adds to typing sets at most the sender's own user. *)
Definition typingGrowsBySender (h : Socket -> Gateway -> Out) : Prop :=
  forall client g r users' v,
    map_get r (typingUsers (h client g).1.1) = Some users' -> v ∈ users' ->
    (exists users, map_get r (typingUsers g) = Some users /\ (v ∈ users)) \/
    if_truthy (sock_userId client) = Some v.

(** The C3 scenario: ["A"] connects on ["c1"] and signals typing in room
    ["r1"] without joining it. *)
Definition typingScenario : list Input :=
  [Connect "c1" (authHs "A"); Typing "c1" (mkTypingData (Some "r1") true)].

Definition typingScenarioWorld : World :=
  match run initWorld typingScenario with
  | Some (w, _) => w
  | None => initWorld
  end.

(** The inputs of the C8 scenario: ["A"] on ["a1"], ["B"] on ["b1"];
    ["a1"] joins the room named ["b1"] and replies to ["B"]'s message
    ["p"]. *)
Definition replyScenario : list Input :=
  [Connect "a1" (authHs "A"); Connect "b1" (authHs "B"); JoinRoom "a1" "b1";
   SendMessage "a1" storeOfB (replyDto "p")].

(** ** Gateway methods called by the message service *)

Inductive ServiceEvent :=
| MessageUpdated (messageId content authorId : string)
| MessageDeleted (messageId authorId : string).

(** [broadcastMessageUpdate] and [broadcastMessageDelete]: a
    [this.server.emit] each (timestamps are not modelled). *)
Definition broadcastMessageUpdate (messageId content authorId : string) : Target * ServiceEvent :=
  (ServerAll, MessageUpdated messageId content authorId).

Definition broadcastMessageDelete (messageId authorId : string) : Target * ServiceEvent :=
  (ServerAll, MessageDeleted messageId authorId).

(** ** MessageService (the class of src/src/services/search.service.ts that
    holds the gateway reference) over its two repositories

    A row of the [messages] table ([Message] entity; the timestamp columns
    [createdAt], [updatedAt], [deletedAt] are not modelled, nor are the
    database's column type checks). *)
Record MessageRow := mkMessageRow {
  row_id : string;
  row_content : string;
  row_isEdited : bool;
  row_isDeleted : bool;
  row_attachmentUrl : option string;
  row_attachmentName : option string;
  row_attachmentType : option string;
  row_attachmentSize : option Z;
  row_authorId : string;
  row_parentMessageId : option string
}.

(** The [users] table (its ids) and the [messages] table (by id). *)
Record Db := mkDb {
  db_users : gset string;
  db_messages : gmap string MessageRow
}.

Inductive Exn :=
| NotFoundException (message : string)
| ForbiddenException (message : string)
| QueryFailedError (message : string).

Inductive ServiceResult (A : Type) := Ok (a : A) | Throw (e : Exn).
Arguments Ok {A} a.
Arguments Throw {A} e.

Definition toMessage (r : MessageRow) : Message :=
  mkMessage (row_id r) (row_content r) (row_authorId r) (row_parentMessageId r).

(** [messageRepository.findOne({ where: { id, isDeleted: false } })] *)
Definition findActive (db : Db) (id : string) : option MessageRow :=
  match db_messages db !! id with
  | Some r => if row_isDeleted r then None else Some r
  | None => None
  end.

(** [messageRepository.count({ where: { parentMessageId: id, isDeleted: false } })] *)
Definition replyCount (db : Db) (id : string) : nat :=
  size (filter (fun kv => row_parentMessageId kv.2 = Some id /\ row_isDeleted kv.2 = false)
               (db_messages db)).

(** [createMessage(createMessageDto)]. [newId] is the uuid the database
    generates on [save]. With [authorId] undefined, TypeORM drops the
    criterion, so the author check finds any user, and [save] then fails on
    the NOT NULL [authorId] column. The database's own type checks (the
    uuid columns [id], [authorId] and [parentMessageId], the NOT NULL
    [content]) are not modelled: they only make more calls throw
    [QueryFailedError] (where the model throws [NotFoundException] for a
    non-uuid id, the code throws [QueryFailedError]). So the model succeeds
    on every input the code succeeds on, with the same row, and every throw
    of the model is a throw of the code. *)
Definition createMessageDb (newId : string) (d : CreateMessageDto) (db : Db)
  : ServiceResult Message * Db :=
  let authorFound :=
    match dto_authorId d with
    | Some a => bool_decide (a ∈ db_users db)
    | None => negb (bool_decide (db_users db = ∅))
    end in
  if negb authorFound then (Throw (NotFoundException "Author not found"), db) else
  let parentOk :=
    match if_truthy (dto_parentMessageId d) with
    | Some parentMessageId =>
        match findActive db parentMessageId with Some _ => true | None => false end
    | None => true
    end in
  if negb parentOk
  then (Throw (NotFoundException "Parent message not found or has been deleted"), db) else
  match dto_authorId d with
  | None => (Throw (QueryFailedError "null value in column authorId"), db)
  | Some authorId =>
      let row := mkMessageRow newId (dto_content d) false false (dto_attachmentUrl d)
                   (dto_attachmentName d) (dto_attachmentType d) (dto_attachmentSize d)
                   authorId (dto_parentMessageId d) in
      (Ok (toMessage row), mkDb (db_users db) (<[newId := row]> (db_messages db)))
  end.

(** [getMessageById(id)]: the message and its [replyCount]. *)
Definition getMessageByIdDb (db : Db) (id : string) : ServiceResult (Message * nat) :=
  match findActive db id with
  | Some r => Ok (toMessage r, replyCount db id)
  | None => Throw (NotFoundException "Message not found")
  end.

(** [updateMessage(id, {content}, authorId)]; [hasGateway] is the
    [if (this.chatGateway)] test. *)
Definition updateMessageDb (hasGateway : bool) (id content authorId : string) (db : Db)
  : ServiceResult (Message * nat) * Db * list (Target * ServiceEvent) :=
  match findActive db id with
  | None => (Throw (NotFoundException "Message not found"), db, [])
  | Some r =>
      if negb (String.eqb (row_authorId r) authorId)
      then (Throw (ForbiddenException "You can only edit your own messages"), db, [])
      else
        let r' := mkMessageRow (row_id r) content true (row_isDeleted r) (row_attachmentUrl r)
                    (row_attachmentName r) (row_attachmentType r) (row_attachmentSize r)
                    (row_authorId r) (row_parentMessageId r) in
        let db' := mkDb (db_users db) (<[row_id r := r']> (db_messages db)) in
        (Ok (toMessage r', replyCount db' (row_id r')), db',
         if hasGateway
         then [broadcastMessageUpdate (row_id r') (row_content r') (row_authorId r')]
         else [])
  end.

(** [deleteMessage(id, authorId)]: a soft delete. *)
Definition deleteMessageDb (hasGateway : bool) (id authorId : string) (db : Db)
  : ServiceResult unit * Db * list (Target * ServiceEvent) :=
  match findActive db id with
  | None => (Throw (NotFoundException "Message not found"), db, [])
  | Some r =>
      if negb (String.eqb (row_authorId r) authorId)
      then (Throw (ForbiddenException "You can only delete your own messages"), db, [])
      else
        let r' := mkMessageRow (row_id r) (row_content r) (row_isEdited r) true
                    (row_attachmentUrl r) (row_attachmentName r) (row_attachmentType r)
                    (row_attachmentSize r) (row_authorId r) (row_parentMessageId r) in
        (Ok tt, mkDb (db_users db) (<[row_id r := r']> (db_messages db)),
         if hasGateway then [broadcastMessageDelete (row_id r') (row_authorId r')] else [])
  end.

(** The user a connected socket is authenticated as. *)
Definition authOf (socks : gmap string Socket) (c : string) : option string :=
  match socks !! c with
  | Some s => if_truthy (sock_userId s)
  | None => None
  end.

(** The registry matches the connected sockets: [userSessions] maps each
    user to exactly the ids of the connected sockets authenticated as that
    user and holds no empty set, [socketToUser] maps exactly those sockets
    to their user, and every socket is stored under its own id. *)
Definition registryConsistent (w : World) : Prop :=
  (forall u c, (exists S, userSessions (gw w) !! u = Some S /\ (c ∈ S)) <->
               authOf (sockets w) c = Some u) /\
  (forall u S, userSessions (gw w) !! u = Some S -> S <> ∅) /\
  (forall c, socketToUser (gw w) !! c = authOf (sockets w) c) /\
  (forall c s, sockets w !! c = Some s -> sock_id s = c).

(** Some connected socket is authenticated as [u]. *)
Definition isOnline (w : World) (u : string) : Prop :=
  exists c, authOf (sockets w) c = Some u.

Definition keepsSockId (h : Socket -> Gateway -> Out) : Prop :=
  forall client g, sock_id (h client g).1.2 = sock_id client.

Definition keepsRegistry (h : Socket -> Gateway -> Out) : Prop :=
  forall client g, userSessions (h client g).1.1 = userSessions g /\
                   socketToUser (h client g).1.1 = socketToUser g.

(** The world of the witnesses: ["A"] connected on ["c1"] and ["c2"]. *)
Definition twoSocketWorld : World :=
  match run initWorld [Connect "c1" (authHs "A"); Connect "c2" (authHs "A")] with
  | Some (w, _) => w
  | None => initWorld
  end.

(** Every row of the [messages] table is stored under its own id (the
    primary key). *)
Definition dbKeyed (db : Db) : Prop :=
  forall k r, db_messages db !! k = Some r -> row_id r = k.

(** The database of the witnesses: users ["A"] and ["B"], and ["B"]'s
    message ["p"] with one reply ["q"] by ["A"]. *)
Definition sampleDb : Db :=
  mkDb {[ "A"; "B" ]}
       {[ "p" := mkMessageRow "p" "hello" false false None None None None "B" None;
          "q" := mkMessageRow "q" "hi" false false None None None None "A" (Some "p") ]}.

(** ** Basic lemmas *)

Lemma map_get_set {V} (k k' : string) (v : V) (l : list (string * V)) :
  map_get k (map_set k' v l) = if String.eqb k k' then Some v else map_get k l.
Proof.
  induction l as [|[a x] rest IH]; simpl.
  - destruct (String.eqb k k'); reflexivity.
  - destruct (String.eqb k' a) eqn:Ha; simpl.
    + apply String.eqb_eq in Ha; subst a.
      destruct (String.eqb k k'); reflexivity.
    + rewrite IH. destruct (String.eqb k a) eqn:Hka; [|reflexivity].
      apply String.eqb_eq in Hka; subst a.
      destruct (String.eqb k k') eqn:Hkk; [|reflexivity].
      apply String.eqb_eq in Hkk; subst k'. rewrite String.eqb_refl in Ha. discriminate.
Qed.

(** [clearTyping] drops the user from every set and emits only
    [userStoppedTyping] for that user. *)
Lemma clearTyping_get (u r : string) (l : list (string * gset string)) :
  map_get r (clearTyping u l).1 = (fun S => S ∖ {[u]}) <$> map_get r l.
Proof.
  induction l as [|[a S] rest IH]; simpl; [reflexivity|].
  destruct (clearTyping u rest) as [rest' evs] eqn:E; simpl in IH.
  destruct (decide (u ∈ S)); simpl; destruct (String.eqb r a); simpl; try exact IH.
  - reflexivity.
  - f_equal. apply leibniz_equiv. set_solver.
Qed.

Lemma clearTyping_events (u : string) (l : list (string * gset string)) :
  Forall (fun e => exists r, e = emit (ServerTo r) (UserStoppedTyping u)) (clearTyping u l).2.
Proof.
  induction l as [|[a S] rest IH]; simpl; [constructor|].
  destruct (clearTyping u rest) as [rest' evs] eqn:E; simpl in IH.
  destruct (decide (u ∈ S)); simpl; [constructor; [eauto|]|]; exact IH.
Qed.

Lemma clearTyping_again (u : string) (l : list (string * gset string)) :
  clearTyping u (clearTyping u l).1 = ((clearTyping u l).1, []).
Proof.
  induction l as [|[a S] rest IH]; simpl; [reflexivity|].
  destruct (clearTyping u rest) as [rest' evs] eqn:E; simpl in IH |- *.
  destruct (decide (u ∈ S)); simpl; rewrite IH;
    (destruct (decide (u ∈ _)); [set_solver|reflexivity]).
Qed.

(** [removeUserSocket] touches only [userSessions]; afterwards the user's
    entry is absent or a non-empty set without the socket. *)
Lemma removeUserSocket_other_fields (u c : string) (g : Gateway) :
  socketToUser (removeUserSocket u c g) = socketToUser g /\
  typingUsers (removeUserSocket u c g) = typingUsers g.
Proof.
  unfold removeUserSocket. destruct (userSessions g !! u); [|auto].
  destruct (Nat.eqb _ 0); auto.
Qed.

Lemma removeUserSocket_after (u c : string) (g : Gateway) :
  userSessions (removeUserSocket u c g) !! u = None \/
  exists S, (userSessions (removeUserSocket u c g) !! u = Some S) /\ (c ∉ S) /\ (size S <> 0).
Proof.
  unfold removeUserSocket. destruct (userSessions g !! u) as [S|] eqn:E; [|auto].
  destruct (Nat.eqb (size (S ∖ {[c]})) 0) eqn:Hz; simpl.
  - left. apply lookup_delete_eq.
  - right. exists (S ∖ {[c]}). rewrite lookup_insert_eq.
    apply Nat.eqb_neq in Hz. split; [reflexivity|]. split; [set_solver|exact Hz].
Qed.

Lemma removeUserSocket_noop (u c : string) (g : Gateway) :
  (userSessions g !! u = None \/
   exists S, (userSessions g !! u = Some S) /\ (c ∉ S) /\ (size S <> 0)) ->
  removeUserSocket u c g = g.
Proof.
  destruct g as [us stu tu]; unfold removeUserSocket; simpl.
  intros [H|[S [H [Hc Hs]]]]; rewrite H; [reflexivity|].
  assert (Hd : S ∖ {[c]} = S) by (apply leibniz_equiv; set_solver).
  rewrite Hd. apply Nat.eqb_neq in Hs. rewrite Hs. rewrite insert_id by exact H.
  reflexivity.
Qed.

Lemma filter_clearTyping_offline (u : string) (l : list (string * gset string)) :
  List.filter isUserOffline (clearTyping u l).2 = [].
Proof.
  generalize (clearTyping_events u l). induction 1 as [|e evs [r ->] _ IH]; simpl; auto.
Qed.

Lemma handleDisconnect_auth (client : Socket) (g : Gateway) (u : string) :
  if_truthy (sock_userId client) = Some u ->
  handleDisconnect client g =
    (let g1 := removeUserSocket u (sock_id client) g in
     (mkGateway (userSessions g1) (delete (sock_id client) (socketToUser g1))
                (clearTyping u (typingUsers g1)).1,
      offlineAfter u g1 ++ (clearTyping u (typingUsers g1)).2)).
Proof.
  intros Hu. unfold handleDisconnect. rewrite Hu.
  destruct (clearTyping _ _); reflexivity.
Qed.

Lemma offlineAfter_filter (u : string) (g : Gateway) :
  List.filter isUserOffline (offlineAfter u g) = offlineAfter u g.
Proof.
  unfold offlineAfter. destruct (userSessions g !! u); [destruct (Nat.eqb _ 0)|]; reflexivity.
Qed.

(** ** C5: [userOffline] exactly on the last disconnect *)

(** C5. When a socket authenticated as [u] disconnects and [u]'s session
    set [S] holds it, the disconnect emits a [userOffline] (for [u], and no
    other [userOffline]) exactly when [S] had one element, and then exactly
    one. *)
Theorem handleDisconnect_userOffline_iff_last (client : Socket) (g : Gateway)
    (u : string) (S : gset string)
    (Hu : if_truthy (sock_userId client) = Some u)
    (HS : userSessions g !! u = Some S)
    (Hc : sock_id client ∈ S) :
  List.filter isUserOffline (handleDisconnect client g).2 =
    if Nat.eqb (size S) 1 then [emit ServerAll (UserOffline u)] else [].
Proof.
  rewrite (handleDisconnect_auth client g u Hu). simpl.
  rewrite List.filter_app, filter_clearTyping_offline, app_nil_r, offlineAfter_filter.
  assert (Hpos : 1 <= size S).
  { rewrite <- (size_singleton (C := gset string) (sock_id client)). apply subseteq_size. set_solver. }
  assert (Hsz : size (S ∖ {[sock_id client]}) = size S - 1).
  { rewrite size_difference by set_solver. rewrite size_singleton. reflexivity. }
  unfold offlineAfter, removeUserSocket. rewrite HS, Hsz.
  destruct (Nat.eqb (size S - 1) 0) eqn:Hz; simpl.
  - rewrite lookup_delete_eq. apply Nat.eqb_eq in Hz.
    replace (Nat.eqb (size S) 1) with true by (symmetry; apply Nat.eqb_eq; lia).
    reflexivity.
  - rewrite lookup_insert_eq. rewrite Hsz, Hz. apply Nat.eqb_neq in Hz.
    replace (Nat.eqb (size S) 1) with false by (symmetry; apply Nat.eqb_neq; lia).
    reflexivity.
Qed.

Lemma handleDisconnect_userOffline_iff_last_witness :
  let client := mkSocket "c1" (Some "A") {[ "c1" ]} in
  let g := associateUserWithSocket "A" "c1" emptyGateway in
  userSessions g !! "A" = Some {[ "c1" ]} /\
  List.filter isUserOffline (handleDisconnect client g).2 =
    if Nat.eqb (size ({[ "c1" ]} : gset string)) 1
    then [emit ServerAll (UserOffline "A")] else [].
Proof.
  cbv zeta. split; [reflexivity|].
  apply (handleDisconnect_userOffline_iff_last (mkSocket "c1" (Some "A") {[ "c1" ]})
           (associateUserWithSocket "A" "c1" emptyGateway) "A" {[ "c1" ]});
    [reflexivity | reflexivity | set_solver].
Defined.

(** ** C2: running the disconnect teardown twice *)

(** C2 (as amended). Running [handleDisconnect] a second time on the same
    socket leaves the gateway state as the first run left it and emits
    no [userStoppedTyping]; it emits exactly the [userOffline] events of the
    first run again (one when the user had no session left, none
    otherwise). *)
Theorem handleDisconnect_twice (client : Socket) (g : Gateway) :
  let '(g1, e1) := handleDisconnect client g in
  let '(g2, e2) := handleDisconnect client g1 in
  g2 = g1 /\ e2 = List.filter isUserOffline e1.
Proof.
  destruct (if_truthy (sock_userId client)) as [u|] eqn:Hu.
  - rewrite (handleDisconnect_auth client g u Hu). cbv beta iota zeta.
    rewrite (handleDisconnect_auth client _ u Hu). cbv zeta.
    set (g1 := removeUserSocket u (sock_id client) g).
    destruct (removeUserSocket_other_fields u (sock_id client) g) as [Hs Ht].
    rewrite removeUserSocket_noop
      by (simpl; apply (removeUserSocket_after u (sock_id client) g)).
    simpl. rewrite clearTyping_again. simpl.
    rewrite delete_delete_eq. split; [reflexivity|].
    rewrite List.filter_app, filter_clearTyping_offline, offlineAfter_filter.
    rewrite !app_nil_r. reflexivity.
  - unfold handleDisconnect. rewrite Hu. cbv beta iota zeta.
    cbn [socketToUser userSessions typingUsers].
    rewrite delete_delete_eq. split; reflexivity.
Qed.

(** C2 counterexample: ["A"]'s only socket ["c1"] disconnects; a second
    run of the teardown on it emits one more [userOffline "A"]. *)
Lemma handleDisconnect_twice_repeats_userOffline :
  let client := mkSocket "c1" (Some "A") {[ "c1" ]} in
  let g1 := (handleDisconnect client (associateUserWithSocket "A" "c1" emptyGateway)).1 in
  (handleDisconnect client g1).2 = [emit ServerAll (UserOffline "A")].
Proof. vm_compute. reflexivity. Qed.

(** ** C1: [userOnline] on connect *)

(** C1 (failing input). ["A"] connects on ["c1"], then again on ["c2"]:
    the second connect emits a second global [userOnline "A"]. *)
Lemma second_connect_emits_userOnline :
  option_map snd (run initWorld [Connect "c1" (authHs "A"); Connect "c2" (authHs "A")]) =
  Some [[emit ServerAll (UserOnline "A")]; [emit ServerAll (UserOnline "A")]].
Proof. vm_compute. reflexivity. Qed.

(** ** C4: events on a socket that is not authenticated *)

(** C4 (as amended). On a socket with no (truthy) [userId], [joinRoom],
    [leaveRoom] and [typing] do nothing and emit nothing, [sendMessage]
    answers the caller only with an error event, and [getOnlineUsers]
    answers the caller only with the online user list; the gateway state is
    unchanged and nothing is broadcast. *)
Theorem unauthenticated_events (client : Socket) (g : Gateway)
    (Hu : if_truthy (sock_userId client) = None)
    (roomId : string) (data : TypingData) (svc : MessageService) (d : CreateMessageDto) :
  handleJoinRoom roomId client g = (g, client, []) /\
  handleLeaveRoom roomId client g = (g, client, []) /\
  handleTyping data client g = (g, client, []) /\
  handleMessage svc d client g =
    (g, client, [emit (ClientSelf (sock_id client)) (ErrorEvent "User not authenticated")]) /\
  handleGetOnlineUsers client g =
    (g, client, [emit (ClientSelf (sock_id client))
                   (OnlineUsers (elements (dom (userSessions g))))]).
Proof.
  unfold handleJoinRoom, handleLeaveRoom, handleTyping, handleMessage, handleGetOnlineUsers.
  rewrite Hu. repeat split.
Qed.

Lemma unauthenticated_events_witness :
  if_truthy (sock_userId (noAuthSocket "c1")) = None /\
  handleJoinRoom "r1" (noAuthSocket "c1") emptyGateway = (emptyGateway, noAuthSocket "c1", []).
Proof.
  split; [reflexivity|].
  apply (unauthenticated_events (noAuthSocket "c1") emptyGateway eq_refl "r1"
           (mkTypingData None true) failingStore (replyDto "p")).
Defined.

(** C4 counterexample: [joinRoom] on a socket that is not authenticated
    sends no authentication-error event to it. *)
Lemma unauthenticated_joinRoom_no_error :
  ~ exists msg, In (emit (ClientSelf "c1") (ErrorEvent msg))
                   (handleJoinRoom "r1" (noAuthSocket "c1") emptyGateway).2.
Proof. simpl. intros [msg []]. Qed.

(** ** C6: [associateUserWithSocket] *)

(** C6 (as amended). Registering a pair that is already registered
    (the socket is in the user's set and mapped to the user) leaves the
    state unchanged. Registering a socket id that is mapped to another user
    [v] is not a no-op: the id is added to the new user's set (the user's
    earlier socket ids stay in it; a user without a set gets [{c}]) and is
    re-mapped to the new user, while [v]'s set is left as it was. *)
Theorem associateUserWithSocket_register (u c : string) (g : Gateway) :
  ((exists S, userSessions g !! u = Some S /\ (c ∈ S)) ->
   socketToUser g !! c = Some u ->
   associateUserWithSocket u c g = g) /\
  (forall v, socketToUser g !! c = Some v -> v <> u ->
   socketToUser (associateUserWithSocket u c g) !! c = Some u /\
   userSessions (associateUserWithSocket u c g) !! u =
     Some ({[c]} ∪ default ∅ (userSessions g !! u)) /\
   userSessions (associateUserWithSocket u c g) !! v = userSessions g !! v).
Proof.
  destruct g as [us stu tu]; unfold associateUserWithSocket; simpl. split.
  - intros [S [HS Hc]] Hcu. rewrite HS. simpl. rewrite HS. simpl.
    assert (Hd : {[c]} ∪ S = S) by (apply leibniz_equiv; set_solver).
    rewrite Hd, (insert_id us u S HS), (insert_id stu c u Hcu). reflexivity.
  - intros v Hv Hne. split; [apply lookup_insert_eq|]. split.
    + rewrite lookup_insert_eq. destruct (us !! u) eqn:E; simpl; [rewrite E; reflexivity|].
      rewrite lookup_insert_eq. reflexivity.
    + rewrite lookup_insert_ne by congruence.
      destruct (us !! u) eqn:E; [reflexivity|].
      rewrite lookup_insert_ne by congruence. reflexivity.
Qed.

Lemma associateUserWithSocket_register_witness :
  let g := associateUserWithSocket "A" "c0" (associateUserWithSocket "B" "c1" emptyGateway) in
  socketToUser g !! "c1" = Some "B" /\
  (socketToUser (associateUserWithSocket "A" "c1" g) !! "c1" = Some "A" /\
   userSessions (associateUserWithSocket "A" "c1" g) !! "A" =
     Some ({[ "c1" ]} ∪ default ∅ (userSessions g !! "A")) /\
   userSessions (associateUserWithSocket "A" "c1" g) !! "B" = userSessions g !! "B").
Proof.
  cbv zeta. split; [reflexivity|].
  apply (proj2 (associateUserWithSocket_register "A" "c1"
                  (associateUserWithSocket "A" "c0" (associateUserWithSocket "B" "c1" emptyGateway))) "B");
    [reflexivity | discriminate].
Defined.

(** C6 counterexample: ["c1"] is registered to ["B"]; registering it to
    ["A"] changes the state. *)
Lemma associateUserWithSocket_conflict_changes_state :
  associateUserWithSocket "A" "c1" (associateUserWithSocket "B" "c1" emptyGateway)
  <> associateUserWithSocket "B" "c1" emptyGateway.
Proof.
  intros H. apply (f_equal (fun g => socketToUser g !! "c1")) in H.
  vm_compute in H. discriminate H.
Qed.

(** ** C7: a failing [createMessage] *)

(** C7. When [createMessage] rejects, the sender's socket gets exactly one
    error event, nothing else is emitted, and the state is unchanged. *)
Theorem handleMessage_create_rejected (svc : MessageService) (d : CreateMessageDto)
    (client : Socket) (g : Gateway) (u e : string)
    (Hu : if_truthy (sock_userId client) = Some u)
    (Hc : createMessage svc (createMessageArg u d) = Rejected e) :
  handleMessage svc d client g =
    (g, client, [emit (ClientSelf (sock_id client)) (ErrorEvent "Failed to send message")]).
Proof. unfold handleMessage. rewrite Hu, Hc. reflexivity. Qed.

Lemma handleMessage_create_rejected_witness :
  let client := mkSocket "a1" (Some "A") {[ "a1" ]} in
  handleMessage failingStore (replyDto "missing") client emptyGateway =
    (emptyGateway, client, [emit (ClientSelf "a1") (ErrorEvent "Failed to send message")]).
Proof.
  cbv zeta.
  exact (handleMessage_create_rejected failingStore (replyDto "missing")
           (mkSocket "a1" (Some "A") {[ "a1" ]}) emptyGateway "A"
           "Parent message not found or has been deleted" eq_refl eq_refl).
Defined.

(** ** C9: the author is the socket's user *)

(** C9. For an authenticated socket, two [sendMessage] payloads that differ
    only in [authorId] give the same [createMessage] argument, whose
    [authorId] is the socket's [userId], and the same handler outcome. *)
Theorem handleMessage_author_from_socket (svc : MessageService) (d1 d2 : CreateMessageDto)
    (client : Socket) (g : Gateway) (u : string)
    (Hu : if_truthy (sock_userId client) = Some u)
    (Hd : withAuthor None d1 = withAuthor None d2) :
  createMessageArg u d1 = createMessageArg u d2 /\
  dto_authorId (createMessageArg u d1) = Some u /\
  handleMessage svc d1 client g = handleMessage svc d2 client g.
Proof.
  assert (Harg : createMessageArg u d1 = createMessageArg u d2).
  { destruct d1, d2; unfold withAuthor in Hd; simpl in Hd.
    injection Hd; intros; subst. reflexivity. }
  split; [exact Harg|]. split; [reflexivity|].
  unfold handleMessage. rewrite Hu, Harg. reflexivity.
Qed.

Lemma handleMessage_author_from_socket_witness :
  let client := mkSocket "a1" (Some "A") {[ "a1" ]} in
  let forged := withAuthor (Some "B") (replyDto "p") in
  handleMessage storeOfB forged client emptyGateway =
  handleMessage storeOfB (replyDto "p") client emptyGateway.
Proof.
  cbv zeta.
  apply (handleMessage_author_from_socket storeOfB (withAuthor (Some "B") (replyDto "p"))
           (replyDto "p") (mkSocket "a1" (Some "A") {[ "a1" ]}) emptyGateway "A");
    reflexivity.
Defined.

(** ** C10: an empty [roomId] in [typing] *)

(** C10. A [typing] event with [roomId = ""] is handled exactly as one
    without [roomId]: every emit goes to room ["general"], and for an
    authenticated sender the ["general"] typing set holds the sender iff
    [isTyping]. *)
Theorem handleTyping_empty_roomId (b : bool) (client : Socket) (g : Gateway) :
  handleTyping (mkTypingData (Some "") b) client g = handleTyping (mkTypingData None b) client g /\
  Forall (fun e => target e = ClientTo (sock_id client) "general")
         (handleTyping (mkTypingData (Some "") b) client g).2 /\
  (forall u, if_truthy (sock_userId client) = Some u ->
   exists S, map_get "general" (typingUsers (handleTyping (mkTypingData (Some "") b) client g).1.1)
             = Some S /\ (u ∈ S <-> b = true)).
Proof.
  split; [reflexivity|]. unfold handleTyping. simpl.
  destruct (if_truthy (sock_userId client)) as [u|] eqn:Hu.
  - split; [destruct b; repeat constructor|].
    intros u' Hu'. injection Hu'; intros; subst u'.
    destruct b; simpl; rewrite map_get_set; simpl; eexists; (split; [reflexivity|]);
      split; intros; try set_solver; discriminate.
  - split; [constructor|]. intros u' Hu'. discriminate.
Qed.

Lemma handleTyping_empty_roomId_witness :
  exists S, map_get "general"
              (typingUsers (handleTyping (mkTypingData (Some "") true)
                              (mkSocket "a1" (Some "A") {[ "a1" ]}) emptyGateway).1.1) = Some S /\
            ("A" ∈ S <-> true = true).
Proof.
  apply (proj2 (proj2 (handleTyping_empty_roomId true (mkSocket "a1" (Some "A") {[ "a1" ]})
                         emptyGateway))).
  reflexivity.
Defined.

(** ** C8: [messageReply] delivery *)

(** C8 (failing input). [notifyUser] addresses ["B"]'s socket with
    [server.to("b1")], a room that ["A"]'s socket ["a1"] has joined, so the
    sender's own socket receives the [messageReply]. *)
Lemma messageReply_reaches_sender :
  match run initWorld replyScenario with
  | Some (w, [_; _; _; evs]) =>
      In (emit (ServerTo "b1") (MessageReply "m2" "reply" "A" (Some "p"))) evs /\
      "a1" ∈ recipients (sockets w) (ServerTo "b1")
  | _ => False
  end.
Proof.
  destruct (run initWorld replyScenario) as [[w evss]|] eqn:E;
    vm_compute in E; [|discriminate E].
  injection E as <- <-. split.
  - right. left. reflexivity.
  - unfold recipients. apply elem_of_dom. vm_compute. eexists. reflexivity.
Qed.

(** ** C3: typing sets and room membership *)

Lemma keepsUserId_handlers (roomId : string) (data : TypingData)
    (svc : MessageService) (d : CreateMessageDto) :
  keepsUserId (handleJoinRoom roomId) /\ keepsUserId (handleLeaveRoom roomId) /\
  keepsUserId (handleTyping data) /\ keepsUserId (handleMessage svc d) /\
  keepsUserId handleGetOnlineUsers.
Proof.
  unfold keepsUserId, handleJoinRoom, handleLeaveRoom, handleTyping, handleMessage,
    handleGetOnlineUsers.
  repeat split; intros client g; repeat (case_match; simpl); reflexivity.
Qed.

Lemma typingGrowsBySender_unchanged (h : Socket -> Gateway -> Out) :
  (forall client g, typingUsers (h client g).1.1 = typingUsers g) -> typingGrowsBySender h.
Proof. intros H client g r users' v Hr Hv. left. rewrite H in Hr. eauto. Qed.

Lemma typingGrowsBySender_handlers (room : string) (data : TypingData)
    (svc : MessageService) (d : CreateMessageDto) :
  typingGrowsBySender (handleJoinRoom room) /\ typingGrowsBySender (handleLeaveRoom room) /\
  typingGrowsBySender (handleTyping data) /\ typingGrowsBySender (handleMessage svc d) /\
  typingGrowsBySender handleGetOnlineUsers.
Proof.
  split; [|split; [|split; [|split]]].
  - apply typingGrowsBySender_unchanged. intros client g.
    unfold handleJoinRoom. case_match; reflexivity.
  - intros client g r users' v Hr Hv. unfold handleLeaveRoom in Hr.
    destruct (if_truthy (sock_userId client)) as [u|] eqn:Hu; simpl in Hr; [|left; eauto].
    destruct (map_get room (typingUsers g)) as [S|] eqn:HS; simpl in Hr; [|left; eauto].
    destruct (decide (u ∈ S)); simpl in Hr; [|left; eauto].
    rewrite map_get_set in Hr. left.
    destruct (String.eqb r room) eqn:E; [|eauto].
    apply String.eqb_eq in E. subst r. injection Hr as <-. exists S. set_solver.
  - intros client g r users' v Hr Hv. unfold handleTyping in Hr.
    destruct (if_truthy (sock_userId client)) as [u|] eqn:Hu; simpl in Hr; [|left; eauto].
    set (roomId := default "general" (if_truthy (td_roomId data))) in Hr.
    set (typing0 := if map_has roomId (typingUsers g) then typingUsers g
                    else map_set roomId ∅ (typingUsers g)) in Hr.
    assert (H0 : forall r' S', map_get r' typing0 = Some S' -> v ∈ S' ->
                 exists S, map_get r' (typingUsers g) = Some S /\ (v ∈ S)).
    { intros r' S' H' Hv'. unfold typing0 in H'.
      destruct (map_has roomId (typingUsers g)); [eauto|].
      rewrite map_get_set in H'. destruct (String.eqb r' roomId); [|eauto].
      injection H' as <-. set_solver. }
    assert (Hin : forall S', default ∅ (map_get roomId typing0) = S' -> v ∈ S' ->
                  exists S, map_get roomId (typingUsers g) = Some S /\ (v ∈ S)).
    { intros S' <- Hv'. destruct (map_get roomId typing0) eqn:E; simpl in Hv'; [eauto|set_solver]. }
    destruct (td_isTyping data); simpl in Hr; rewrite map_get_set in Hr;
      (destruct (String.eqb r roomId) eqn:E; [|left; eauto]);
      apply String.eqb_eq in E; subst r; injection Hr as <-.
    + apply elem_of_union in Hv as [Hv|Hv].
      * right. apply elem_of_singleton in Hv. congruence.
      * left. eauto.
    + left. apply (Hin _ eq_refl). set_solver.
  - apply typingGrowsBySender_unchanged. intros client g.
    unfold handleMessage. repeat (case_match; simpl); reflexivity.
  - apply typingGrowsBySender_unchanged. reflexivity.
Qed.

Lemma handleConnection_typing (hs : Handshake) (client : Socket) (g : Gateway) :
  typingUsers (handleConnection hs client g).1.1 = typingUsers g.
Proof. unfold handleConnection. repeat (case_match; simpl); reflexivity. Qed.

Lemma runHandler_typingBacked (w w' : World) (c : string) (h : Socket -> Gateway -> Out)
    (evs : list Emission) :
  typingBacked w -> keepsUserId h -> typingGrowsBySender h ->
  runHandler w c h = Some (w', evs) -> typingBacked w'.
Proof.
  intros Hinv Hkeep Hgrow Hrun. unfold runHandler in Hrun.
  destruct (sockets w !! c) as [client|] eqn:Hc; [|discriminate].
  destruct (h client (gw w)) as [[g' client'] evs'] eqn:Eh. injection Hrun as <- _.
  pose proof (Hkeep client (gw w)) as Hk. rewrite Eh in Hk. simpl in Hk.
  intros r users' v Hr Hv. simpl in Hr.
  destruct (Hgrow client (gw w) r users' v) as [[S [HS HvS]]|Hself];
    [rewrite Eh; exact Hr | exact Hv | |].
  - destruct (Hinv r S v HS HvS) as [c' [s [Hs Hsv]]]. simpl.
    destruct (decide (c' = c)) as [->|Hne].
    + exists c, client'. rewrite lookup_insert_eq. rewrite Hc in Hs. injection Hs as <-.
      rewrite Hk. auto.
    + exists c', s. rewrite lookup_insert_ne by congruence. auto.
  - exists c, client'. simpl. rewrite lookup_insert_eq, Hk. auto.
Qed.

Lemma step_typingBacked (w w' : World) (i : Input) (evs : list Emission) :
  typingBacked w -> step w i = Some (w', evs) -> typingBacked w'.
Proof.
  intros Hinv Hstep. destruct i as [c hs|c|c room|c room|c svc d|c data|c]; simpl in Hstep.
  - destruct (sockets w !! c) eqn:Hc; [discriminate|].
    destruct (handleConnection hs _ (gw w)) as [[g' client'] evs'] eqn:Eh.
    injection Hstep as <- _.
    pose proof (handleConnection_typing hs (mkSocket c None {[c]}) (gw w)) as Ht.
    rewrite Eh in Ht. simpl in Ht.
    intros r users v Hr Hv. simpl in Hr. rewrite Ht in Hr.
    destruct (Hinv r users v Hr Hv) as [c' [s [Hs Hsv]]].
    exists c', s. simpl. rewrite lookup_insert_ne by congruence. auto.
  - destruct (sockets w !! c) as [client|] eqn:Hc; [|discriminate].
    destruct (handleDisconnect client (gw w)) as [g' evs'] eqn:Eh.
    injection Hstep as <- _.
    intros r users v Hr Hv. simpl in Hr.
    destruct (if_truthy (sock_userId client)) as [u|] eqn:Hu.
    + rewrite (handleDisconnect_auth client (gw w) u Hu) in Eh. injection Eh as <- _.
      simpl in Hr. rewrite clearTyping_get in Hr.
      destruct (removeUserSocket_other_fields u (sock_id client) (gw w)) as [_ Ht].
      rewrite Ht in Hr.
      destruct (map_get r (typingUsers (gw w))) as [S|] eqn:HS; simpl in Hr; [|discriminate].
      injection Hr as <-.
      destruct (Hinv r S v HS) as [c' [s [Hs Hsv]]]; [set_solver|].
      exists c', s. simpl. rewrite lookup_delete_ne; [auto|].
      intros ->. rewrite Hc in Hs. injection Hs as ->. rewrite Hu in Hsv.
      injection Hsv as ->. set_solver.
    + unfold handleDisconnect in Eh. rewrite Hu in Eh. injection Eh as <- _.
      simpl in Hr. destruct (Hinv r users v Hr Hv) as [c' [s [Hs Hsv]]].
      exists c', s. simpl. rewrite lookup_delete_ne; [auto|].
      intros ->. rewrite Hc in Hs. injection Hs as ->. congruence.
  - eapply runHandler_typingBacked; eauto;
      [apply (keepsUserId_handlers room (mkTypingData None false) failingStore (replyDto ""))
      |apply (typingGrowsBySender_handlers room (mkTypingData None false) failingStore (replyDto ""))].
  - eapply runHandler_typingBacked; eauto;
      [apply (keepsUserId_handlers room (mkTypingData None false) failingStore (replyDto ""))
      |apply (typingGrowsBySender_handlers room (mkTypingData None false) failingStore (replyDto ""))].
  - eapply runHandler_typingBacked; eauto;
      [apply (keepsUserId_handlers "" (mkTypingData None false) svc d)
      |apply (typingGrowsBySender_handlers "" (mkTypingData None false) svc d)].
  - eapply runHandler_typingBacked; eauto;
      [apply (keepsUserId_handlers "" data failingStore (replyDto ""))
      |apply (typingGrowsBySender_handlers "" data failingStore (replyDto ""))].
  - eapply runHandler_typingBacked; eauto;
      [apply (keepsUserId_handlers "" (mkTypingData None false) failingStore (replyDto ""))
      |apply (typingGrowsBySender_handlers "" (mkTypingData None false) failingStore (replyDto ""))].
Qed.

Lemma run_reachable (w : World) (is : list Input) (w' : World) (evss : list (list Emission)) :
  reachable w -> run w is = Some (w', evss) -> reachable w'.
Proof.
  revert w evss. induction is as [|i rest IH]; intros w evss Hw Hrun; simpl in Hrun.
  - injection Hrun as <- _. exact Hw.
  - destruct (step w i) as [[w1 evs1]|] eqn:Hs; [|discriminate].
    destruct (run w1 rest) as [[w2 evss2]|] eqn:Hr; [|discriminate].
    injection Hrun as <- _. apply (IH w1 evss2); [|exact Hr].
    exact (reachable_step w i w1 evs1 Hw Hs).
Qed.

Lemma typingScenario_reachable : reachable typingScenarioWorld.
Proof.
  apply (run_reachable initWorld typingScenario typingScenarioWorld
           [[emit ServerAll (UserOnline "A")]; [emit (ClientTo "c1" "r1") (UserTyping "A")]]
           reachable_init).
  vm_compute. reflexivity.
Qed.

(** C3 (as amended). In every reachable world, each user in a room's
    typing set has a connected socket authenticated as that user (the
    socket need not be in that room). *)
Theorem reachable_typingBacked (w : World) (H : reachable w) : typingBacked w.
Proof.
  induction H as [|w i w' evs Hw IH Hstep].
  - intros r users u Hr. discriminate Hr.
  - exact (step_typingBacked w w' i evs IH Hstep).
Qed.

Lemma reachable_typingBacked_witness :
  reachable typingScenarioWorld /\ typingBacked typingScenarioWorld.
Proof.
  split; [exact typingScenario_reachable|].
  apply reachable_typingBacked. exact typingScenario_reachable.
Defined.

(** C3 counterexample: in a reachable world, room ["r1"]'s typing set
    holds ["A"] while no socket of ["A"] is in room ["r1"]. *)
Lemma typing_without_joining :
  reachable typingScenarioWorld /\
  (exists users, map_get "r1" (typingUsers (gw typingScenarioWorld)) = Some users /\ ("A" ∈ users)) /\
  ~ joinedTo typingScenarioWorld "A" "r1".
Proof.
  split; [exact typingScenario_reachable|]. split.
  - eexists. split; [vm_compute; reflexivity|]. set_solver.
  - assert (Hs : sockets typingScenarioWorld =
                 {[ "c1" := mkSocket "c1" (Some "A") ({[ "user:A" ]} ∪ {[ "c1" ]}) ]})
      by (vm_compute; reflexivity).
    intros [c [s [Hc [_ Hr]]]]. rewrite Hs in Hc.
    apply lookup_singleton_Some in Hc as [<- <-]. simpl in Hr. set_solver.
Qed.

(** ** Registry invariants *)

Lemma if_truthy_some (o : option string) (u : string) :
  if_truthy o = Some u -> if_truthy (Some u) = Some u.
Proof. destruct o as [[|a s]|]; simpl; intros H; [discriminate|injection H as <-; reflexivity|discriminate]. Qed.

Lemma handlers_keep_sock_id_registry (roomId : string) (data : TypingData)
    (svc : MessageService) (d : CreateMessageDto) :
  (keepsSockId (handleJoinRoom roomId) /\ keepsSockId (handleLeaveRoom roomId) /\
   keepsSockId (handleTyping data) /\ keepsSockId (handleMessage svc d) /\
   keepsSockId handleGetOnlineUsers) /\
  (keepsRegistry (handleJoinRoom roomId) /\ keepsRegistry (handleLeaveRoom roomId) /\
   keepsRegistry (handleTyping data) /\ keepsRegistry (handleMessage svc d) /\
   keepsRegistry handleGetOnlineUsers).
Proof.
  unfold keepsSockId, keepsRegistry, handleJoinRoom, handleLeaveRoom, handleTyping,
    handleMessage, handleGetOnlineUsers.
  repeat split; intros; repeat (case_match; simpl); reflexivity.
Qed.

Lemma authOf_insert (m : gmap string Socket) (c c' : string) (s : Socket) :
  authOf (<[c := s]> m) c' = if decide (c' = c) then if_truthy (sock_userId s) else authOf m c'.
Proof.
  unfold authOf. destruct (decide (c' = c)) as [->|Hne].
  - rewrite lookup_insert_eq. reflexivity.
  - rewrite lookup_insert_ne by congruence. reflexivity.
Qed.

Lemma authOf_delete (m : gmap string Socket) (c c' : string) :
  authOf (delete c m) c' = if decide (c' = c) then None else authOf m c'.
Proof.
  unfold authOf. destruct (decide (c' = c)) as [->|Hne].
  - rewrite lookup_delete_eq. reflexivity.
  - rewrite lookup_delete_ne by congruence. reflexivity.
Qed.

Lemma runHandler_registry (w w' : World) (c : string) (h : Socket -> Gateway -> Out)
    (evs : list Emission) :
  registryConsistent w -> keepsUserId h -> keepsSockId h -> keepsRegistry h ->
  runHandler w c h = Some (w', evs) -> registryConsistent w'.
Proof.
  intros [H1 [H2 [H3 H4]]] Hk Hi Hr Hrun. unfold runHandler in Hrun.
  destruct (sockets w !! c) as [client|] eqn:Hc; [|discriminate].
  pose proof (Hk client (gw w)) as Hk'. pose proof (Hi client (gw w)) as Hi'.
  destruct (Hr client (gw w)) as [Hus Hstu].
  destruct (h client (gw w)) as [[g' client'] evs'] eqn:Eh. injection Hrun as <- _.
  simpl in *.
  assert (Hsame : forall c', authOf (<[c := client']> (sockets w)) c' = authOf (sockets w) c').
  { intros c'. rewrite authOf_insert. destruct (decide (c' = c)) as [->|]; [|reflexivity].
    unfold authOf. rewrite Hc, Hk'. reflexivity. }
  unfold registryConsistent; cbn [gw sockets].
  split; [|split; [|split]].
  - intros u c'. rewrite Hus, Hsame. apply H1.
  - intros u S. rewrite Hus. apply H2.
  - intros c'. rewrite Hstu, Hsame. apply H3.
  - intros c' s Hs. destruct (decide (c' = c)) as [->|Hne].
    + rewrite lookup_insert_eq in Hs. injection Hs as <-. rewrite Hi'. apply H4, Hc.
    + rewrite lookup_insert_ne in Hs by congruence. apply H4, Hs.
Qed.

Lemma associate_lookup (u c v : string) (g : Gateway) :
  userSessions (associateUserWithSocket u c g) !! v =
  if decide (v = u) then Some ({[c]} ∪ default ∅ (userSessions g !! u)) else userSessions g !! v.
Proof.
  unfold associateUserWithSocket. simpl.
  destruct (userSessions g !! u) as [S|] eqn:HS; simpl.
  - destruct (decide (v = u)) as [->|Hne].
    + rewrite lookup_insert_eq, HS. reflexivity.
    + rewrite lookup_insert_ne by congruence. reflexivity.
  - rewrite lookup_insert_eq. simpl. destruct (decide (v = u)) as [->|Hne].
    + rewrite lookup_insert_eq. reflexivity.
    + rewrite !lookup_insert_ne by congruence. reflexivity.
Qed.

Lemma remove_lookup (u c v : string) (g : Gateway) :
  userSessions (removeUserSocket u c g) !! v =
  if decide (v = u) then
    match userSessions g !! u with
    | Some T => if Nat.eqb (size (T ∖ {[c]})) 0 then None else Some (T ∖ {[c]})
    | None => None
    end
  else userSessions g !! v.
Proof.
  unfold removeUserSocket.
  destruct (userSessions g !! u) as [S|] eqn:HS.
  - destruct (Nat.eqb (size (S ∖ {[c]})) 0); simpl;
      destruct (decide (v = u)) as [->|Hne].
    + rewrite lookup_delete_eq. reflexivity.
    + rewrite lookup_delete_ne by congruence. reflexivity.
    + rewrite lookup_insert_eq. reflexivity.
    + rewrite lookup_insert_ne by congruence. reflexivity.
  - destruct (decide (v = u)) as [->|]; [exact HS|reflexivity].
Qed.

Lemma step_registry (w w' : World) (i : Input) (evs : list Emission) :
  registryConsistent w -> step w i = Some (w', evs) -> registryConsistent w'.
Proof.
  intros Hinv Hstep. pose proof Hinv as [H1 [H2 [H3 H4]]].
  destruct i as [c hs|c|c room|c room|c svc d|c data|c]; simpl in Hstep.
  - destruct (sockets w !! c) eqn:Hc; [discriminate|].
    assert (Hfresh : authOf (sockets w) c = None) by (unfold authOf; rewrite Hc; reflexivity).
    unfold handleConnection in Hstep. cbn [sock_id] in Hstep.
    destruct (truthy (js_or (auth_token hs) (headers_authorization hs))) eqn:Ht;
      [destruct (if_truthy (auth_userId hs)) as [u|] eqn:Hu|].
    + injection Hstep as <- _. pose proof (if_truthy_some _ _ Hu) as Hu'.
      unfold registryConsistent; cbn [gw sockets].
      split; [|split; [|split]].
      * intros v c'. rewrite associate_lookup, authOf_insert. cbn [sock_userId set_userId join].
        rewrite Hu'. destruct (decide (c' = c)) as [->|Hne], (decide (v = u)) as [->|Hvu].
        -- split; [reflexivity|]. intros _. eexists. split; [reflexivity|]. set_solver.
        -- split; [|congruence]. intros [S [HS HcS]].
           assert (authOf (sockets w) c = Some v) by (apply H1; eauto). congruence.
        -- rewrite <- H1. split.
           ++ intros [S [HS Hc'S]]. injection HS as <-.
              destruct (userSessions (gw w) !! u) as [S0|]; simpl in Hc'S; [|set_solver].
              exists S0. split; [reflexivity|set_solver].
           ++ intros [S [HS Hc'S]]. rewrite HS. eexists. split; [reflexivity|]. simpl. set_solver.
        -- apply H1.
      * intros v S. rewrite associate_lookup. destruct (decide (v = u)).
        -- intros HS. injection HS as <-. set_solver.
        -- apply H2.
      * intros c'. cbn [socketToUser associateUserWithSocket]. rewrite authOf_insert.
        cbn [sock_userId set_userId join]. rewrite Hu'.
        destruct (decide (c' = c)) as [->|Hne].
        -- rewrite lookup_insert_eq. reflexivity.
        -- rewrite lookup_insert_ne by congruence. apply H3.
      * intros c' s Hs. destruct (decide (c' = c)) as [->|Hne].
        -- rewrite lookup_insert_eq in Hs. injection Hs as <-. reflexivity.
        -- rewrite lookup_insert_ne in Hs by congruence. apply H4, Hs.
    + injection Hstep as <- _.
      unfold registryConsistent; cbn [gw sockets]. split; [|split; [|split]].
      * intros v c'. rewrite authOf_insert. destruct (decide (c' = c)) as [->|Hne]; [|apply H1].
        simpl. split; [|discriminate]. intros HS. apply H1 in HS. congruence.
      * exact H2.
      * intros c'. rewrite authOf_insert. destruct (decide (c' = c)) as [->|Hne]; [|apply H3].
        rewrite H3. exact Hfresh.
      * intros c' s Hs. destruct (decide (c' = c)) as [->|Hne].
        -- rewrite lookup_insert_eq in Hs. injection Hs as <-. reflexivity.
        -- rewrite lookup_insert_ne in Hs by congruence. apply H4, Hs.
    + injection Hstep as <- _.
      unfold registryConsistent; cbn [gw sockets]. split; [|split; [|split]].
      * intros v c'. rewrite authOf_insert. destruct (decide (c' = c)) as [->|Hne]; [|apply H1].
        simpl. split; [|discriminate]. intros HS. apply H1 in HS. congruence.
      * exact H2.
      * intros c'. rewrite authOf_insert. destruct (decide (c' = c)) as [->|Hne]; [|apply H3].
        rewrite H3. exact Hfresh.
      * intros c' s Hs. destruct (decide (c' = c)) as [->|Hne].
        -- rewrite lookup_insert_eq in Hs. injection Hs as <-. reflexivity.
        -- rewrite lookup_insert_ne in Hs by congruence. apply H4, Hs.
  - destruct (sockets w !! c) as [client|] eqn:Hc; [|discriminate].
    pose proof (H4 c client Hc) as Hid.
    assert (Hac : authOf (sockets w) c = if_truthy (sock_userId client))
      by (unfold authOf; rewrite Hc; reflexivity).
    destruct (handleDisconnect client (gw w)) as [g' evs'] eqn:Eh.
    injection Hstep as <- _.
    destruct (if_truthy (sock_userId client)) as [u|] eqn:Hu.
    + rewrite (handleDisconnect_auth client (gw w) u Hu) in Eh. injection Eh as <- _.
      rewrite Hid.
      destruct (removeUserSocket_other_fields u c (gw w)) as [Hstu _].
      unfold registryConsistent; cbn [gw sockets userSessions socketToUser].
      split; [|split; [|split]].
      * intros v c'. rewrite remove_lookup, authOf_delete.
        destruct (decide (c' = c)) as [->|Hne], (decide (v = u)) as [->|Hvu].
        -- split; [|discriminate]. intros [S [HS HcS]].
           destruct (userSessions (gw w) !! u) as [S0|]; [|discriminate].
           destruct (Nat.eqb _ 0); [discriminate|]. injection HS as <-. set_solver.
        -- split; [|discriminate]. intros HS. apply H1 in HS. congruence.
        -- rewrite <- H1. destruct (userSessions (gw w) !! u) as [S0|] eqn:HS0.
           ++ destruct (Nat.eqb (size (S0 ∖ {[c]})) 0) eqn:Hz.
              ** split; [intros [S [[=] _]]|]. intros [S [HS Hc'S]]. injection HS as <-.
                 apply Nat.eqb_eq, size_empty_iff in Hz. set_solver.
              ** split; intros [S [HS Hc'S]]; injection HS as <-; eexists; split; eauto; set_solver.
           ++ split; intros [S [HS _]]; discriminate.
        -- apply H1.
      * intros v S. rewrite remove_lookup. destruct (decide (v = u)) as [->|]; [|apply H2].
        destruct (userSessions (gw w) !! u) as [S0|]; [|discriminate].
        destruct (Nat.eqb (size (S0 ∖ {[c]})) 0) eqn:Hz; [discriminate|].
        intros HS. injection HS as <-. intros He. rewrite He, size_empty in Hz. discriminate.
      * intros c'. rewrite Hstu, authOf_delete. destruct (decide (c' = c)) as [->|Hne].
        -- apply lookup_delete_eq.
        -- rewrite lookup_delete_ne by congruence. apply H3.
      * intros c' s Hs. destruct (decide (c' = c)) as [->|Hne].
        -- rewrite lookup_delete_eq in Hs. discriminate.
        -- rewrite lookup_delete_ne in Hs by congruence. apply H4, Hs.
    + unfold handleDisconnect in Eh. rewrite Hu in Eh. injection Eh as <- _.
      rewrite Hid.
      unfold registryConsistent; cbn [gw sockets userSessions socketToUser typingUsers].
      split; [|split; [|split]].
      * intros v c'. rewrite authOf_delete. destruct (decide (c' = c)) as [->|Hne]; [|apply H1].
        split; [|discriminate]. intros HS. apply H1 in HS. congruence.
      * exact H2.
      * intros c'. rewrite authOf_delete. destruct (decide (c' = c)) as [->|Hne].
        -- apply lookup_delete_eq.
        -- rewrite lookup_delete_ne by congruence. apply H3.
      * intros c' s Hs. destruct (decide (c' = c)) as [->|Hne].
        -- rewrite lookup_delete_eq in Hs. discriminate.
        -- rewrite lookup_delete_ne in Hs by congruence. apply H4, Hs.
  - destruct (handlers_keep_sock_id_registry room (mkTypingData None false) failingStore (replyDto ""))
      as [[Hi _] [Hr _]].
    eapply runHandler_registry; eauto.
    apply (keepsUserId_handlers room (mkTypingData None false) failingStore (replyDto "")).
  - destruct (handlers_keep_sock_id_registry room (mkTypingData None false) failingStore (replyDto ""))
      as [[_ [Hi _]] [_ [Hr _]]].
    eapply runHandler_registry; eauto.
    apply (keepsUserId_handlers room (mkTypingData None false) failingStore (replyDto "")).
  - destruct (handlers_keep_sock_id_registry "" (mkTypingData None false) svc d)
      as [[_ [_ [_ [Hi _]]]] [_ [_ [_ [Hr _]]]]].
    eapply runHandler_registry; eauto.
    apply (keepsUserId_handlers "" (mkTypingData None false) svc d).
  - destruct (handlers_keep_sock_id_registry "" data failingStore (replyDto ""))
      as [[_ [_ [Hi _]]] [_ [_ [Hr _]]]].
    eapply runHandler_registry; eauto.
    apply (keepsUserId_handlers "" data failingStore (replyDto "")).
  - destruct (handlers_keep_sock_id_registry "" (mkTypingData None false) failingStore (replyDto ""))
      as [[_ [_ [_ [_ Hi]]]] [_ [_ [_ [_ Hr]]]]].
    eapply runHandler_registry; eauto.
    apply (keepsUserId_handlers "" (mkTypingData None false) failingStore (replyDto "")).
Qed.

Lemma initWorld_registry : registryConsistent initWorld.
Proof.
  unfold registryConsistent, initWorld, emptyGateway, authOf; cbn [gw sockets userSessions socketToUser].
  split; [|split; [|split]].
  - intros u c. rewrite lookup_empty. split; [intros [S [HS _]]; discriminate|discriminate].
  - intros u S HS. discriminate.
  - intros c. rewrite !lookup_empty. reflexivity.
  - intros c s Hs. discriminate.
Qed.

Lemma online_iff_session (w : World) (u : string) :
  registryConsistent w -> isOnline w u <-> exists S, userSessions (gw w) !! u = Some S.
Proof.
  intros [H1 [H2 _]]. unfold isOnline. split.
  - intros [c Hc]. apply H1 in Hc as [S [HS _]]. eauto.
  - intros [S HS]. pose proof (H2 u S HS) as Hne.
    destruct (set_choose_L S Hne) as [c Hc]. exists c. apply H1. eauto.
Qed.

Lemma twoSocketWorld_reachable : reachable twoSocketWorld.
Proof.
  apply (run_reachable initWorld [Connect "c1" (authHs "A"); Connect "c2" (authHs "A")]
           twoSocketWorld
           [[emit ServerAll (UserOnline "A")]; [emit ServerAll (UserOnline "A")]] reachable_init).
  vm_compute. reflexivity.
Qed.

(** Registry consistency (chat.gateway.ts, handleConnection,
    handleDisconnect, associateUserWithSocket, removeUserSocket). In every
    reachable world, [userSessions] maps each user to exactly the ids of
    the connected sockets authenticated as that user and holds no empty
    set, and [socketToUser] maps exactly the connected authenticated
    sockets to their user. *)
Theorem reachable_registryConsistent (w : World) (H : reachable w) : registryConsistent w.
Proof.
  induction H as [|w i w' evs Hw IH Hstep].
  - exact initWorld_registry.
  - exact (step_registry w w' i evs IH Hstep).
Qed.

Lemma reachable_registryConsistent_witness :
  reachable twoSocketWorld /\ registryConsistent twoSocketWorld.
Proof.
  split; [exact twoSocketWorld_reachable|].
  apply reachable_registryConsistent. exact twoSocketWorld_reachable.
Defined.

(** [getOnlineUsers] in a reachable world answers the asking socket alone,
    changes nothing, and lists each user that has a connected
    authenticated socket, once, and no one else. *)
Theorem getOnlineUsers_lists_online (w : World) (c : string) (s : Socket)
    (Hw : reachable w) (Hc : sockets w !! c = Some s) :
  exists l, step w (GetOnlineUsers c) = Some (w, [emit (ClientSelf c) (OnlineUsers l)]) /\
            NoDup l /\ (forall u, u ∈ l <-> isOnline w u).
Proof.
  pose proof (reachable_registryConsistent w Hw) as Hinv.
  pose proof Hinv as [_ [_ [_ H4]]].
  exists (elements (dom (userSessions (gw w)))). split; [|split].
  - simpl. unfold runHandler. rewrite Hc. simpl. rewrite (H4 c s Hc), insert_id by exact Hc.
    destruct w. reflexivity.
  - apply NoDup_elements.
  - intros u. rewrite elem_of_elements, elem_of_dom, (online_iff_session w u Hinv).
    unfold is_Some. reflexivity.
Qed.

Lemma getOnlineUsers_lists_online_witness :
  exists l, step twoSocketWorld (GetOnlineUsers "c2") =
              Some (twoSocketWorld, [emit (ClientSelf "c2") (OnlineUsers l)]) /\
            NoDup l /\ (forall u, u ∈ l <-> isOnline twoSocketWorld u).
Proof.
  apply (getOnlineUsers_lists_online twoSocketWorld "c2"
           (mkSocket "c2" (Some "A") ({[ "user:A" ]} ∪ {[ "c2" ]})) twoSocketWorld_reachable).
  vm_compute. reflexivity.
Defined.

(** A [Disconnect] of a socket authenticated as [u] in a reachable world
    emits [userOffline] for [u] exactly once when no other connected socket
    of [u] remains afterwards, and emits no [userOffline] otherwise. *)
Theorem disconnect_userOffline_iff_offline (w w' : World) (c u : string) (s : Socket)
    (evs : list Emission)
    (Hw : reachable w) (Hc : sockets w !! c = Some s)
    (Hu : if_truthy (sock_userId s) = Some u)
    (Hstep : step w (Disconnect c) = Some (w', evs)) :
  (~ isOnline w' u /\ List.filter isUserOffline evs = [emit ServerAll (UserOffline u)]) \/
  (isOnline w' u /\ List.filter isUserOffline evs = []).
Proof.
  pose proof (reachable_registryConsistent w Hw) as Hinv.
  pose proof (step_registry w w' (Disconnect c) evs Hinv Hstep) as Hinv'.
  pose proof Hinv' as [_ [H2' _]].
  rewrite (online_iff_session w' u Hinv').
  simpl in Hstep. rewrite Hc in Hstep.
  rewrite (handleDisconnect_auth s (gw w) u Hu) in Hstep. simpl in Hstep.
  injection Hstep as <- <-. simpl in H2' |- *.
  rewrite List.filter_app, filter_clearTyping_offline, app_nil_r, offlineAfter_filter.
  unfold offlineAfter.
  destruct (userSessions (removeUserSocket u (sock_id s) (gw w)) !! u) as [S|] eqn:HS.
  - right. split; [eauto|].
    pose proof (H2' u S HS) as Hne.
    destruct (Nat.eqb (size S) 0) eqn:Hz; [|reflexivity].
    apply Nat.eqb_eq, size_empty_iff in Hz. exfalso. apply Hne, leibniz_equiv, Hz.
  - left. split; [intros [S HS']; congruence|reflexivity].
Qed.

Lemma disconnect_userOffline_iff_offline_witness :
  exists w' evs, step twoSocketWorld (Disconnect "c2") = Some (w', evs) /\
    ((~ isOnline w' "A" /\ List.filter isUserOffline evs = [emit ServerAll (UserOffline "A")]) \/
     (isOnline w' "A" /\ List.filter isUserOffline evs = [])).
Proof.
  eexists _, _. split; [vm_compute; reflexivity|].
  apply (disconnect_userOffline_iff_offline twoSocketWorld _ "c2" "A"
           (mkSocket "c2" (Some "A") ({[ "user:A" ]} ∪ {[ "c2" ]})) _ twoSocketWorld_reachable);
    vm_compute; reflexivity.
Defined.

(** ** Handler effects *)

(** [handleConnection] never looks at the token's value: any two
    handshakes whose token ([auth.token] or else the [authorization]
    header) is truthy and that carry the same [auth.userId] give the same
    registry, socket and events. *)
Theorem handleConnection_token_value_unused (hs1 hs2 : Handshake) (client : Socket) (g : Gateway)
    (H1 : truthy (js_or (auth_token hs1) (headers_authorization hs1)) = true)
    (H2 : truthy (js_or (auth_token hs2) (headers_authorization hs2)) = true)
    (Hu : auth_userId hs1 = auth_userId hs2) :
  handleConnection hs1 client g = handleConnection hs2 client g.
Proof. unfold handleConnection. rewrite H1, H2, Hu. reflexivity. Qed.

Lemma handleConnection_token_value_unused_witness :
  handleConnection (mkHandshake (Some "valid-jwt") (Some "A") None) (noAuthSocket "c1") emptyGateway =
  handleConnection (mkHandshake None (Some "A") (Some "anything")) (noAuthSocket "c1") emptyGateway.
Proof. apply handleConnection_token_value_unused; reflexivity. Defined.

(** A [Connect] whose handshake lacks a truthy token or a non-empty
    [auth.userId] still connects the socket, but unauthenticated: the
    gateway state is unchanged and nothing is emitted. *)
Theorem connect_without_credentials (w : World) (c : string) (hs : Handshake)
    (Hfresh : sockets w !! c = None)
    (Hno : truthy (js_or (auth_token hs) (headers_authorization hs)) = false \/
           if_truthy (auth_userId hs) = None) :
  exists w', step w (Connect c hs) = Some (w', []) /\ gw w' = gw w /\
             (c ∈ dom (sockets w')) /\ authOf (sockets w') c = None.
Proof.
  simpl. rewrite Hfresh. unfold handleConnection.
  assert (Hd : forall s : Socket, c ∈ dom (<[c := s]> (sockets w)))
    by (intros s; rewrite dom_insert_L; set_solver).
  destruct Hno as [Ht|Hu].
  - rewrite Ht. eexists. split; [reflexivity|]. simpl. split; [reflexivity|].
    split; [apply Hd|]. rewrite authOf_insert. destruct (decide (c = c)); [reflexivity|congruence].
  - rewrite Hu. destruct (truthy _); eexists; (split; [reflexivity|]); simpl;
      (split; [reflexivity|]); (split; [apply Hd|]);
      rewrite authOf_insert; (destruct (decide (c = c)); [reflexivity|congruence]).
Qed.

Lemma connect_without_credentials_witness :
  exists w', step twoSocketWorld (Connect "c3" (mkHandshake (Some "t") (Some "") None)) = Some (w', []) /\
             gw w' = gw twoSocketWorld /\ ("c3" ∈ dom (sockets w')) /\ authOf (sockets w') "c3" = None.
Proof.
  apply connect_without_credentials; [vm_compute; reflexivity|].
  right. reflexivity.
Defined.

Lemma clearTyping_event_in (u r : string) (l : list (string * gset string)) :
  emit (ServerTo r) (UserStoppedTyping u) ∈ (clearTyping u l).2 <->
  exists S, ((r, S) ∈ l) /\ (u ∈ S).
Proof.
  induction l as [|[a S] rest IH]; simpl.
  - split; [intros H; apply elem_of_nil in H; contradiction|].
    intros [S [H _]]. apply elem_of_nil in H. contradiction.
  - destruct (clearTyping u rest) as [rest' evs] eqn:E; simpl in IH |- *.
    destruct (decide (u ∈ S)) as [Hin|Hout]; simpl.
    + rewrite elem_of_cons, IH. split.
      * intros [Heq|[S' [H1 H2]]].
        -- injection Heq as ->. exists S. split; [left|]; done.
        -- exists S'. split; [right|]; done.
      * intros [S' [H1 H2]]. apply elem_of_cons in H1 as [Heq|H1].
        -- injection Heq as -> ->. left. reflexivity.
        -- right. eauto.
    + rewrite IH. split.
      * intros [S' [H1 H2]]. exists S'. split; [right|]; done.
      * intros [S' [H1 H2]]. apply elem_of_cons in H1 as [Heq|H1].
        -- injection Heq as -> ->. contradiction.
        -- eauto.
Qed.

(** [handleDisconnect] of a socket authenticated as [u]: afterwards [u] is
    in no typing set and every other user's typing membership is as before;
    a [userStoppedTyping] for [u] goes to exactly the rooms whose typing
    set held [u]; the socket is dropped from [socketToUser]. *)
Theorem handleDisconnect_typing (client : Socket) (g : Gateway) (u : string)
    (Hu : if_truthy (sock_userId client) = Some u) :
  (forall r, map_get r (typingUsers (handleDisconnect client g).1) =
             (fun S => S ∖ {[u]}) <$> map_get r (typingUsers g)) /\
  (forall r, emit (ServerTo r) (UserStoppedTyping u) ∈ (handleDisconnect client g).2 <->
             exists S, ((r, S) ∈ typingUsers g) /\ (u ∈ S)) /\
  socketToUser (handleDisconnect client g).1 !! sock_id client = None.
Proof.
  rewrite (handleDisconnect_auth client g u Hu). simpl.
  destruct (removeUserSocket_other_fields u (sock_id client) g) as [Hstu Ht].
  rewrite Ht. split; [|split].
  - intros r. apply clearTyping_get.
  - intros r. rewrite elem_of_app, <- clearTyping_event_in. split; [|auto].
    intros [H|H]; [|exact H]. exfalso. unfold offlineAfter in H.
    destruct (userSessions _ !! u); [destruct (Nat.eqb _ 0)|];
      repeat (apply elem_of_cons in H as [H|H]; [discriminate|]); apply elem_of_nil in H; exact H.
  - apply lookup_delete_eq.
Qed.

Lemma handleDisconnect_typing_witness :
  let client := mkSocket "c1" (Some "A") {[ "c1" ]} in
  let g := mkGateway {[ "A" := {[ "c1" ]} ]} {[ "c1" := "A" ]}
             [("r1", {[ "A"; "B" ]}); ("r2", {[ "B" ]})] in
  (forall r, map_get r (typingUsers (handleDisconnect client g).1) =
             (fun S => S ∖ {[ "A" ]}) <$> map_get r (typingUsers g)) /\
  (forall r, emit (ServerTo r) (UserStoppedTyping "A") ∈ (handleDisconnect client g).2 <->
             exists S, ((r, S) ∈ typingUsers g) /\ ("A" ∈ S)) /\
  socketToUser (handleDisconnect client g).1 !! sock_id client = None.
Proof. cbv zeta. apply handleDisconnect_typing. reflexivity. Defined.

(** [handleLeaveRoom(roomId)] of a socket authenticated as [u]: the socket
    leaves the room; [u] is removed from that room's typing set (other
    members stay) and a [userStoppedTyping] is sent exactly when [u] was in
    it; every other room's typing set and the registry are unchanged. *)
Theorem handleLeaveRoom_effects (room : string) (client : Socket) (g : Gateway) (u : string)
    (Hu : if_truthy (sock_userId client) = Some u) :
  let '(g', client', evs) := handleLeaveRoom room client g in
  (room ∉ sock_rooms client') /\
  map_get room (typingUsers g') = (fun S => S ∖ {[u]}) <$> map_get room (typingUsers g) /\
  (forall r, r <> room -> map_get r (typingUsers g') = map_get r (typingUsers g)) /\
  (emit (ClientTo (sock_id client) room) (UserStoppedTyping u) ∈ evs <->
   exists S, map_get room (typingUsers g) = Some S /\ (u ∈ S)) /\
  userSessions g' = userSessions g /\ socketToUser g' = socketToUser g.
Proof.
  unfold handleLeaveRoom. rewrite Hu.
  assert (Hleft : room ∉ sock_rooms (leave room client)) by (simpl; set_solver).
  assert (Hnl : emit (ClientTo (sock_id client) room) (UserStoppedTyping u) ∉
                [emit (ClientTo (sock_id client) room) (UserLeftRoom u room)])
    by (intros H; apply list_elem_of_singleton in H; discriminate).
  destruct (map_get room (typingUsers g)) as [S|] eqn:HS.
  - destruct (decide (u ∈ S)) as [Hin|Hout]; cbv beta iota zeta; simpl.
    + split; [exact Hleft|]. rewrite map_get_set, String.eqb_refl. split; [reflexivity|].
      split; [|split; [|split; reflexivity]].
      * intros r Hr. rewrite map_get_set. apply String.eqb_neq in Hr. rewrite Hr. reflexivity.
      * split; [intros _; eauto|intros _; left].
    + split; [exact Hleft|]. rewrite HS. split.
      { f_equal. apply leibniz_equiv. set_solver. }
      split; [reflexivity|]. split; [|split; reflexivity].
      split; [intros H; contradiction|]. intros [S' [HS' Hin]]. injection HS' as <-. contradiction.
  - cbv beta iota zeta; simpl. split; [exact Hleft|]. rewrite HS.
    split; [reflexivity|]. split; [reflexivity|]. split; [|split; reflexivity].
    split; [intros H; contradiction|]. intros [S' [HS' _]]. discriminate.
Qed.

Lemma handleLeaveRoom_effects_witness :
  let client := mkSocket "c1" (Some "A") {[ "c1"; "r1" ]} in
  let g := mkGateway {[ "A" := {[ "c1" ]} ]} {[ "c1" := "A" ]} [("r1", {[ "A"; "B" ]})] in
  let '(g', client', evs) := handleLeaveRoom "r1" client g in
  ("r1" ∉ sock_rooms client') /\
  map_get "r1" (typingUsers g') = (fun S => S ∖ {[ "A" ]}) <$> map_get "r1" (typingUsers g) /\
  (forall r, r <> "r1" -> map_get r (typingUsers g') = map_get r (typingUsers g)) /\
  (emit (ClientTo (sock_id client) "r1") (UserStoppedTyping "A") ∈ evs <->
   exists S, map_get "r1" (typingUsers g) = Some S /\ ("A" ∈ S)) /\
  userSessions g' = userSessions g /\ socketToUser g' = socketToUser g.
Proof.
  cbv zeta. exact (handleLeaveRoom_effects "r1" (mkSocket "c1" (Some "A") {[ "c1"; "r1" ]})
    (mkGateway {[ "A" := {[ "c1" ]} ]} {[ "c1" := "A" ]} [("r1", {[ "A"; "B" ]})]) "A" eq_refl).
Defined.

(** [handleTyping(data)] of a socket authenticated as [u], with [r] the
    effective room ([data.roomId], or ["general"] when it is missing or
    empty): afterwards [r] has a typing set, which holds [u] exactly when
    [isTyping] is set and otherwise the same users as before; every other
    room's typing set is unchanged; one event, [userTyping] or
    [userStoppedTyping] for [u], goes to room [r]. *)
Theorem handleTyping_effects (data : TypingData) (client : Socket) (g : Gateway) (u : string)
    (Hu : if_truthy (sock_userId client) = Some u) :
  let r := default "general" (if_truthy (td_roomId data)) in
  let '(g', client', evs) := handleTyping data client g in
  (exists S', map_get r (typingUsers g') = Some S' /\
     ((u ∈ S') <-> td_isTyping data = true) /\
     (forall v, v <> u -> (v ∈ S') <-> exists S, map_get r (typingUsers g) = Some S /\ (v ∈ S))) /\
  (forall r', r' <> r -> map_get r' (typingUsers g') = map_get r' (typingUsers g)) /\
  evs = [emit (ClientTo (sock_id client) r)
           (if td_isTyping data then UserTyping u else UserStoppedTyping u)] /\
  client' = client /\ userSessions g' = userSessions g /\ socketToUser g' = socketToUser g.
Proof.
  cbv zeta. unfold handleTyping. rewrite Hu.
  set (r := default "general" (if_truthy (td_roomId data))).
  set (typing0 := if map_has r (typingUsers g) then typingUsers g
                  else map_set r ∅ (typingUsers g)).
  assert (H0r : default ∅ (map_get r typing0) = default ∅ (map_get r (typingUsers g))).
  { unfold typing0, map_has. destruct (map_get r (typingUsers g)) eqn:E; [rewrite E; reflexivity|].
    rewrite map_get_set, String.eqb_refl. reflexivity. }
  assert (H0 : forall r', r' <> r -> map_get r' typing0 = map_get r' (typingUsers g)).
  { intros r' Hr'. unfold typing0. destruct (map_has r (typingUsers g)); [reflexivity|].
    rewrite map_get_set. apply String.eqb_neq in Hr'. rewrite Hr'. reflexivity. }
  assert (Hold : forall v, v ∈ default ∅ (map_get r (typingUsers g)) <->
                 exists S, map_get r (typingUsers g) = Some S /\ (v ∈ S)).
  { intros v. destruct (map_get r (typingUsers g)); simpl.
    - split; [eauto|]. intros [S [HS Hv]]. injection HS as <-. exact Hv.
    - split; [set_solver|]. intros [S [HS _]]. discriminate. }
  destruct (td_isTyping data); simpl.
  - split; [|split; [|split; [reflexivity|split; [reflexivity|split; reflexivity]]]].
    + eexists. rewrite map_get_set, String.eqb_refl. split; [reflexivity|]. split.
      * split; [reflexivity|]. intros _. set_solver.
      * intros v Hv. rewrite H0r, <- Hold. set_solver.
    + intros r' Hr'. rewrite map_get_set. pose proof Hr' as Hr''.
      apply String.eqb_neq in Hr'. rewrite Hr'. apply H0, Hr''.
  - split; [|split; [|split; [reflexivity|split; [reflexivity|split; reflexivity]]]].
    + eexists. rewrite map_get_set, String.eqb_refl. split; [reflexivity|]. split.
      * split; [set_solver|discriminate].
      * intros v Hv. rewrite H0r, <- Hold. set_solver.
    + intros r' Hr'. rewrite map_get_set. pose proof Hr' as Hr''.
      apply String.eqb_neq in Hr'. rewrite Hr'. apply H0, Hr''.
Qed.

Lemma handleTyping_effects_witness :
  let data := mkTypingData (Some "r1") false in
  let client := mkSocket "c1" (Some "A") {[ "c1" ]} in
  let g := mkGateway {[ "A" := {[ "c1" ]} ]} {[ "c1" := "A" ]} [("r1", {[ "A"; "B" ]})] in
  let r := default "general" (if_truthy (td_roomId data)) in
  let '(g', client', evs) := handleTyping data client g in
  (exists S', map_get r (typingUsers g') = Some S' /\
     (("A" ∈ S') <-> td_isTyping data = true) /\
     (forall v, v <> "A" -> (v ∈ S') <-> exists S, map_get r (typingUsers g) = Some S /\ (v ∈ S))) /\
  (forall r', r' <> r -> map_get r' (typingUsers g') = map_get r' (typingUsers g)) /\
  evs = [emit (ClientTo (sock_id client) r)
           (if td_isTyping data then UserTyping "A" else UserStoppedTyping "A")] /\
  client' = client /\ userSessions g' = userSessions g /\ socketToUser g' = socketToUser g.
Proof.
  exact (handleTyping_effects (mkTypingData (Some "r1") false) (mkSocket "c1" (Some "A") {[ "c1" ]})
    (mkGateway {[ "A" := {[ "c1" ]} ]} {[ "c1" := "A" ]} [("r1", {[ "A"; "B" ]})]) "A" eq_refl).
Defined.

(** ** MessageService over the database *)

Lemma replyCount_replace (db : Db) (k : string) (r r' : MessageRow) (p : string) :
  db_messages db !! k = Some r ->
  row_parentMessageId r' = row_parentMessageId r -> row_isDeleted r' = row_isDeleted r ->
  replyCount (mkDb (db_users db) (<[k := r']> (db_messages db))) p = replyCount db p.
Proof.
  intros Hk Hp Hd. unfold replyCount; simpl. rewrite map_filter_insert.
  case_decide as HP.
  - rewrite map_size_insert_Some; [reflexivity|].
    exists r. apply map_lookup_filter_Some. split; [exact Hk|]. simpl in *. rewrite <- Hp, <- Hd. exact HP.
  - rewrite map_filter_delete, map_size_delete_None; [reflexivity|].
    apply map_lookup_filter_None. right. intros x Hx. rewrite Hk in Hx. injection Hx as <-.
    simpl in *. rewrite <- Hp, <- Hd. exact HP.
Qed.


(** A [createMessage] that succeeds stores the new row under the generated
    id with the dto's content, author and parent, returns it, and
    [getMessageById] of that id then finds it; every other row is left as
    it was. *)
Theorem createMessageDb_roundtrip (newId : string) (d : CreateMessageDto) (db : Db) (m : Message)
    (Hok : (createMessageDb newId d db).1 = Ok m) :
  msg_id m = newId /\ msg_content m = dto_content d /\ dto_authorId d = Some (msg_authorId m) /\
  msg_parentMessageId m = dto_parentMessageId d /\
  (exists n, getMessageByIdDb (createMessageDb newId d db).2 newId = Ok (m, n)) /\
  (forall id, id <> newId ->
     db_messages (createMessageDb newId d db).2 !! id = db_messages db !! id).
Proof.
  unfold createMessageDb in *.
  destruct (negb _); [discriminate|].
  destruct (negb _); [discriminate|].
  destruct (dto_authorId d) as [a|] eqn:Ha; [|discriminate].
  simpl in Hok |- *. injection Hok as <-. simpl.
  split; [reflexivity|]. split; [reflexivity|]. split; [reflexivity|]. split; [reflexivity|].
  split.
  - eexists. unfold getMessageByIdDb, findActive. simpl. rewrite lookup_insert_eq. reflexivity.
  - intros id Hid. apply lookup_insert_ne. congruence.
Qed.

Lemma createMessageDb_roundtrip_witness :
  let d := mkCreateMessageDto "thanks" (Some "A") (Some "p") None None None None in
  (createMessageDb "m1" d sampleDb).1 =
    Ok (mkMessage "m1" "thanks" "A" (Some "p")) /\
  (let m := mkMessage "m1" "thanks" "A" (Some "p") in
   msg_id m = "m1" /\ msg_content m = dto_content d /\ dto_authorId d = Some (msg_authorId m) /\
   msg_parentMessageId m = dto_parentMessageId d /\
   (exists n, getMessageByIdDb (createMessageDb "m1" d sampleDb).2 "m1" = Ok (m, n)) /\
   (forall id, id <> "m1" ->
      db_messages (createMessageDb "m1" d sampleDb).2 !! id = db_messages sampleDb !! id)).
Proof.
  cbv zeta. split; [vm_compute; reflexivity|].
  apply createMessageDb_roundtrip. vm_compute. reflexivity.
Defined.

(** Creating a reply (truthy [parentMessageId] [p]) under a fresh id adds
    exactly one to the reply count of [p]. *)
Theorem createMessageDb_replyCount (newId p : string) (d : CreateMessageDto) (db : Db) (m : Message)
    (Hfresh : db_messages db !! newId = None)
    (Hp : if_truthy (dto_parentMessageId d) = Some p)
    (Hok : (createMessageDb newId d db).1 = Ok m) :
  replyCount (createMessageDb newId d db).2 p = S (replyCount db p).
Proof.
  assert (Hpd : dto_parentMessageId d = Some p).
  { destruct (dto_parentMessageId d) as [[|c t]|]; simpl in Hp; congruence. }
  unfold createMessageDb in *.
  destruct (negb _); [discriminate|].
  destruct (negb _); [discriminate|].
  destruct (dto_authorId d) as [a|] eqn:Ha; [|discriminate].
  unfold replyCount; simpl. rewrite map_filter_insert_True by (simpl; rewrite Hpd; auto).
  apply map_size_insert_None. apply map_lookup_filter_None. left. exact Hfresh.
Qed.

Lemma createMessageDb_replyCount_witness :
  let d := mkCreateMessageDto "thanks" (Some "A") (Some "p") None None None None in
  replyCount (createMessageDb "m1" d sampleDb).2 "p" = S (replyCount sampleDb "p").
Proof.
  cbv zeta. apply (createMessageDb_replyCount "m1" "p" _ sampleDb (mkMessage "m1" "thanks" "A" (Some "p")));
    vm_compute; reflexivity.
Defined.

(** [updateMessage] throws [NotFoundException] exactly when no message
    with that id is active (missing or soft-deleted) and
    [ForbiddenException] exactly when the active message has another
    author; when it throws, the database is unchanged and nothing is
    broadcast. *)
Theorem updateMessageDb_guards (hasGateway : bool) (id content authorId : string) (db : Db) :
  ((updateMessageDb hasGateway id content authorId db).1.1 =
     Throw (NotFoundException "Message not found") <-> findActive db id = None) /\
  ((updateMessageDb hasGateway id content authorId db).1.1 =
     Throw (ForbiddenException "You can only edit your own messages") <->
   exists r, findActive db id = Some r /\ row_authorId r <> authorId) /\
  (forall e, (updateMessageDb hasGateway id content authorId db).1.1 = Throw e ->
     (updateMessageDb hasGateway id content authorId db).1.2 = db /\
     (updateMessageDb hasGateway id content authorId db).2 = []).
Proof.
  unfold updateMessageDb. destruct (findActive db id) as [r|] eqn:Hr.
  - destruct (String.eqb (row_authorId r) authorId) eqn:Ha; simpl.
    + apply String.eqb_eq in Ha.
      split; [split; [discriminate|discriminate]|].
      split; [split; [discriminate|]|].
      * intros [r' [Hr' Hne]]. injection Hr' as <-. contradiction.
      * intros e He. discriminate.
    + apply String.eqb_neq in Ha.
      split; [split; [discriminate|discriminate]|].
      split; [split; [intros _; eauto|reflexivity]|].
      intros e _. split; reflexivity.
  - simpl. split; [split; reflexivity|]. split; [split; [discriminate|]|].
    + intros [r' [Hr' _]]. discriminate.
    + intros e _. split; reflexivity.
Qed.

(** [updateMessage] by the author of an active message: the stored row
    gets the new content and [isEdited = true] (every other column and row
    unchanged), [getMessageById] then returns the new content with the
    same reply count, the returned message is that one, and
    [messageUpdated] is broadcast once, when the gateway is present. *)
Theorem updateMessageDb_by_author (hasGateway : bool) (id content authorId : string) (db : Db)
    (r : MessageRow)
    (Hk : dbKeyed db) (Hr : findActive db id = Some r) (Ha : row_authorId r = authorId) :
  let '(res, db', bc) := updateMessageDb hasGateway id content authorId db in
  let m := mkMessage id content authorId (row_parentMessageId r) in
  res = Ok (m, replyCount db id) /\
  getMessageByIdDb db' id = Ok (m, replyCount db id) /\
  db_messages db' !! id =
    Some (mkMessageRow id content true false (row_attachmentUrl r) (row_attachmentName r)
            (row_attachmentType r) (row_attachmentSize r) authorId (row_parentMessageId r)) /\
  (forall k, k <> id -> db_messages db' !! k = db_messages db !! k) /\
  bc = if hasGateway then [(ServerAll, MessageUpdated id content authorId)] else [].
Proof.
  unfold findActive in Hr.
  destruct (db_messages db !! id) as [r0|] eqn:H0; [|discriminate].
  destruct (row_isDeleted r0) eqn:Hdel; [discriminate|]. injection Hr as ->.
  pose proof (Hk id r H0) as Hid.
  unfold updateMessageDb, findActive. rewrite H0, Hdel, Ha, String.eqb_refl. simpl.
  rewrite Hid, Hdel.
  set (r' := mkMessageRow id content true false (row_attachmentUrl r) (row_attachmentName r)
               (row_attachmentType r) (row_attachmentSize r) authorId (row_parentMessageId r)).
  assert (Hrc : forall q, replyCount (mkDb (db_users db) (<[id := r']> (db_messages db))) q =
                          replyCount db q)
    by (intros q; apply (replyCount_replace db id r r' q H0); simpl; congruence).
  rewrite Hrc. split; [reflexivity|]. split.
  - unfold getMessageByIdDb, findActive. simpl. rewrite lookup_insert_eq. simpl.
    rewrite Hrc. reflexivity.
  - split; [simpl; apply lookup_insert_eq|]. split.
    + intros k Hk'. simpl. apply lookup_insert_ne. congruence.
    + reflexivity.
Qed.

Lemma updateMessageDb_by_author_witness :
  let '(res, db', bc) := updateMessageDb true "p" "hello all" "B" sampleDb in
  let m := mkMessage "p" "hello all" "B" None in
  res = Ok (m, replyCount sampleDb "p") /\
  getMessageByIdDb db' "p" = Ok (m, replyCount sampleDb "p") /\
  db_messages db' !! "p" =
    Some (mkMessageRow "p" "hello all" true false None None None None "B" None) /\
  (forall k, k <> "p" -> db_messages db' !! k = db_messages sampleDb !! k) /\
  bc = [(ServerAll, MessageUpdated "p" "hello all" "B")].
Proof.
  refine (updateMessageDb_by_author true "p" "hello all" "B" sampleDb
            (mkMessageRow "p" "hello" false false None None None None "B" None) _ _ _).
  - intros k r Hkr. unfold sampleDb in Hkr. simpl in Hkr.
    apply lookup_insert_Some in Hkr as [[<- <-]|[_ Hkr]]; [reflexivity|].
    apply lookup_singleton_Some in Hkr as [<- <-]. reflexivity.
  - vm_compute. reflexivity.
  - reflexivity.
Defined.

(** [deleteMessage] is a soft delete. It throws [NotFoundException]
    exactly when no message with that id is active and
    [ForbiddenException] exactly when the active message has another
    author, and then changes and broadcasts nothing. By the author, the
    row stays stored with [isDeleted = true]; afterwards
    [getMessageById], [updateMessage] and a second [deleteMessage] of that
    id all throw [NotFoundException], and [messageDeleted] is broadcast
    once, when the gateway is present. *)
Theorem deleteMessageDb_soft_delete (hasGateway : bool) (id authorId : string) (db : Db) :
  ((deleteMessageDb hasGateway id authorId db).1.1 =
     Throw (NotFoundException "Message not found") <-> findActive db id = None) /\
  ((deleteMessageDb hasGateway id authorId db).1.1 =
     Throw (ForbiddenException "You can only delete your own messages") <->
   exists r, findActive db id = Some r /\ row_authorId r <> authorId) /\
  (forall e, (deleteMessageDb hasGateway id authorId db).1.1 = Throw e ->
     (deleteMessageDb hasGateway id authorId db).1.2 = db /\
     (deleteMessageDb hasGateway id authorId db).2 = []) /\
  (forall r, dbKeyed db -> findActive db id = Some r -> row_authorId r = authorId ->
   let '(res, db', bc) := deleteMessageDb hasGateway id authorId db in
   res = Ok tt /\
   (exists r', db_messages db' !! id = Some r' /\ row_isDeleted r' = true /\
               row_content r' = row_content r) /\
   getMessageByIdDb db' id = Throw (NotFoundException "Message not found") /\
   (forall hg' content, (updateMessageDb hg' id content authorId db').1.1 =
                        Throw (NotFoundException "Message not found")) /\
   (forall hg', (deleteMessageDb hg' id authorId db').1.1 =
                Throw (NotFoundException "Message not found")) /\
   bc = if hasGateway then [(ServerAll, MessageDeleted id authorId)] else []).
Proof.
  split; [|split; [|split]].
  - unfold deleteMessageDb. destruct (findActive db id) as [r|]; simpl; [|split; reflexivity].
    destruct (String.eqb _ _); simpl; split; discriminate.
  - unfold deleteMessageDb. destruct (findActive db id) as [r|]; simpl.
    + destruct (String.eqb (row_authorId r) authorId) eqn:Ha; simpl.
      * apply String.eqb_eq in Ha. split; [discriminate|].
        intros [r' [Hr' Hne]]. injection Hr' as <-. contradiction.
      * apply String.eqb_neq in Ha. split; [intros _; eauto|reflexivity].
    + split; [discriminate|]. intros [r' [Hr' _]]. discriminate.
  - intros e. unfold deleteMessageDb. destruct (findActive db id) as [r|]; simpl; [|auto].
    destruct (String.eqb _ _); simpl; [discriminate|auto].
  - intros r Hk Hr Ha. unfold findActive in Hr.
    destruct (db_messages db !! id) as [r0|] eqn:H0; [|discriminate].
    destruct (row_isDeleted r0) eqn:Hdel; [discriminate|]. injection Hr as ->.
    pose proof (Hk id r H0) as Hid.
    unfold deleteMessageDb at 1. unfold findActive at 1. rewrite H0, Hdel, Ha, String.eqb_refl.
    simpl. rewrite Hid.
    assert (Hgone : findActive (mkDb (db_users db) (<[id := mkMessageRow id (row_content r)
               (row_isEdited r) true (row_attachmentUrl r) (row_attachmentName r)
               (row_attachmentType r) (row_attachmentSize r) authorId
               (row_parentMessageId r)]> (db_messages db))) id = None)
      by (unfold findActive; simpl; rewrite lookup_insert_eq; reflexivity).
    split; [reflexivity|]. split.
    + eexists. split; [simpl; apply lookup_insert_eq|]. split; reflexivity.
    + split; [unfold getMessageByIdDb; rewrite Hgone; reflexivity|].
      split; [intros hg' content; unfold updateMessageDb; rewrite Hgone; reflexivity|].
      split; [intros hg'; unfold deleteMessageDb; rewrite Hgone; reflexivity|].
      reflexivity.
Qed.

(** Soft-deleting a reply of [p] lowers the reply count of [p] by one. *)
Theorem deleteMessageDb_replyCount (hasGateway : bool) (id authorId p : string) (db : Db)
    (r : MessageRow)
    (Hk : dbKeyed db) (Hr : findActive db id = Some r) (Ha : row_authorId r = authorId)
    (Hp : row_parentMessageId r = Some p) :
  S (replyCount (deleteMessageDb hasGateway id authorId db).1.2 p) = replyCount db p.
Proof.
  unfold findActive in Hr.
  destruct (db_messages db !! id) as [r0|] eqn:H0; [|discriminate].
  destruct (row_isDeleted r0) eqn:Hdel; [discriminate|]. injection Hr as ->.
  pose proof (Hk id r H0) as Hid.
  unfold deleteMessageDb, findActive. rewrite H0, Hdel, Ha, String.eqb_refl. simpl.
  rewrite Hid. unfold replyCount. simpl.
  rewrite map_filter_insert_False by (simpl; intros [_ Hd]; discriminate).
  rewrite map_filter_delete.
  assert (Hin : filter (fun kv : string * MessageRow =>
                          row_parentMessageId kv.2 = Some p /\ row_isDeleted kv.2 = false)
                       (db_messages db) !! id = Some r)
    by (apply map_lookup_filter_Some; split; [exact H0|simpl; auto]).
  rewrite map_size_delete_Some by (eexists; exact Hin).
  destruct (size (filter _ (db_messages db))) eqn:Hz; [|reflexivity].
  apply map_size_empty_iff in Hz. rewrite Hz in Hin. discriminate.
Qed.

Lemma deleteMessageDb_replyCount_witness :
  S (replyCount (deleteMessageDb true "q" "A" sampleDb).1.2 "p") = replyCount sampleDb "p".
Proof.
  apply (deleteMessageDb_replyCount true "q" "A" "p" sampleDb
           (mkMessageRow "q" "hi" false false None None None None "A" (Some "p"))).
  - intros k r Hkr. unfold sampleDb in Hkr. simpl in Hkr.
    apply lookup_insert_Some in Hkr as [[<- <-]|[_ Hkr]]; [reflexivity|].
    apply lookup_singleton_Some in Hkr as [<- <-]. reflexivity.
  - vm_compute. reflexivity.
  - reflexivity.
  - reflexivity.
Defined.
